(** * RulerApp: the display-metrics resolver and the ruler surface of [ruler.py]

    A shallow embedding of [RulerView] (src/ruler.py): Python floats are IEEE
    binary64 numbers (Rocq's primitive floats), the platform queries the view
    makes are fields of a [Platform] record, exceptions are values of a result
    type, and the view's two attributes are threaded through a small
    state-and-output monad. *)

From Stdlib Require Import ZArith Lia List String Ascii Bool Floats.
From Stdlib Require DecimalString.
Import ListNotations.

Set Warnings "-inexact-float".

Local Open Scope Z_scope.

(** ** Python values: exceptions and floats *)

Inductive Exn : Type :=
| ZeroDivisionError
| OverflowError
| TypeError
| ValueError
| PlatformError.

Inductive Result (A : Type) : Type :=
| Ok (a : A)
| Raise (e : Exn).

Arguments Ok {A} a.
Arguments Raise {A} e.

Module PyFloat.

(** [float(n)] on a Python int: the nearest binary64 number, ties to even. *)
Definition float_of_Z (n : Z) : float :=
  SF2Prim (binary_normalize prec emax n 0 false).

(** [float(n)] raises [OverflowError] when the rounded value is not finite. *)
Definition py_float (n : Z) : Result float :=
  match binary_normalize prec emax n 0 false with
  | S754_infinity _ => Raise OverflowError
  | sf => Ok (SF2Prim sf)
  end.

(** [x > 0.0], [x <= 0] (against the int [0]) and [x == 0.0]; all three are
    false on a NaN. *)
Definition gt0 (x : float) : bool := PrimFloat.ltb 0%float x.
Definition le0 (x : float) : bool := PrimFloat.leb x 0%float.
Definition is0 (x : float) : bool := PrimFloat.eqb x 0%float.

(** [a / b] on floats raises [ZeroDivisionError] when [b == 0.0]. *)
Definition py_div (a b : float) : Result float :=
  if is0 b then Raise ZeroDivisionError
  else Ok (PrimFloat.div a b).

(** [n * x] with an int [n] on the left: [n] is converted first. *)
Definition int_mul (n : Z) (x : float) : float :=
  PrimFloat.mul (float_of_Z n) x.

End PyFloat.

Import PyFloat.

(** ** The state-and-output monad of a view method

    A method of [RulerView] reads and writes the view's attributes, calls
    commands of the windowing toolkit (recorded in order) and may raise. *)

Local Open Scope float_scope.

Record NSSize : Type :=
  { width : float; height : float }.

Record NSRect : Type :=
  { origin_x : float; origin_y : float; size : NSSize }.

Definition NSMakeRect (x y w h : float) : NSRect :=
  {| origin_x := x; origin_y := y; size := {| width := w; height := h |} |}.

Inductive Color : Type := whiteColor | blackColor | grayColor.

Record TextAttrs : Type :=
  { NSFontAttributeName : float;             (* systemFontOfSize_ *)
    NSForegroundColorAttributeName : Color }.

Inductive Effect : Type :=
| setContentSize_ (w h : float)
| setNeedsDisplay_ (flag : bool)
| set (c : Color)
| NSRectFill (r : NSRect)
| setLineWidth_ (w : float)
| moveToPoint_ (x y : float)
| lineToPoint_ (x y : float)
| stroke
| drawAtPoint_withAttributes_ (s : string) (x y : float) (attrs : TextAttrs).

Record RulerView : Type :=
  { _points_per_mm : float;
    _error_text : option string }.

Definition M (A : Type) : Type :=
  RulerView -> Result A * RulerView * list Effect.

Definition ret {A} (a : A) : M A := fun v => (Ok a, v, []).

Definition raise {A} (e : Exn) : M A := fun v => (Raise e, v, []).

Definition bind {A B} (m : M A) (f : A -> M B) : M B :=
  fun v =>
    match m v with
    | (Ok a, v1, out1) =>
        let '(r, v2, out2) := f a v1 in (r, v2, out1 ++ out2)
    | (Raise e, v1, out1) => (Raise e, v1, out1)
    end.

Definition lift {A} (r : Result A) : M A := fun v => (r, v, []).

(** [try: body  except Exception: handler] *)
Definition try_except {A} (body : M A) (handler : M A) : M A :=
  fun v =>
    match body v with
    | (Ok a, v1, out1) => (Ok a, v1, out1)
    | (Raise _, v1, out1) =>
        let '(r, v2, out2) := handler v1 in (r, v2, out1 ++ out2)
    end.

Definition emit (c : Effect) : M unit := fun v => (Ok tt, v, [c]).

Definition get_points_per_mm : M float :=
  fun v => (Ok (_points_per_mm v), v, []).
Definition get_error_text : M (option string) :=
  fun v => (Ok (_error_text v), v, []).
Definition set_points_per_mm (x : float) : M unit :=
  fun v => (Ok tt, {| _points_per_mm := x; _error_text := _error_text v |}, []).
Definition set_error_text (t : option string) : M unit :=
  fun v => (Ok tt, {| _points_per_mm := _points_per_mm v; _error_text := t |}, []).

Notation "x <- m ;; k" := (bind m (fun x => k))
  (at level 61, m at next level, right associativity).
Notation "m ;;; k" := (bind m (fun _ => k))
  (at level 61, right associativity).

(** [for x in xs: body x] *)
Fixpoint for_each {A} (xs : list A) (body : A -> M unit) : M unit :=
  match xs with
  | [] => ret tt
  | x :: rest => body x ;;; for_each rest body
  end.

Definition result_of {A} (run : Result A * RulerView * list Effect) : Result A :=
  fst (fst run).
Definition view_of {A} (run : Result A * RulerView * list Effect) : RulerView :=
  snd (fst run).
Definition effects_of {A} (run : Result A * RulerView * list Effect) : list Effect :=
  snd run.

(** ** Python helpers *)

(** [range(a, b)] *)
Definition range (a b : Z) : list Z :=
  map (fun i => (a + Z.of_nat i)%Z) (seq 0 (Z.to_nat (b - a))).

(** [str(n)] for an int. *)
Definition str (n : Z) : string :=
  DecimalString.NilZero.string_of_int (Z.to_int n).

(** [int(x)] of a value that may be missing: [int(None)] raises. *)
Definition py_int (x : option Z) : Result Z :=
  match x with
  | Some n => Ok n
  | None => Raise TypeError
  end.

(** Truth value of an optional string: [None] and [""] are false. *)
Definition truthy (t : option string) : bool :=
  match t with
  | Some s => negb (String.eqb s EmptyString)
  | None => false
  end.

(** [t or ""] *)
Definition or_empty (t : option string) : string :=
  match t with
  | Some s => if String.eqb s EmptyString then EmptyString else s
  | None => EmptyString
  end.

(** ** Module constants (lines 51-63) *)

Definition FALLBACK_PPI : float := 254.0.
Definition MM_PER_INCH : float := 25.4.
Definition RULER_LENGTH_MM : Z := 150.
Definition MARGIN_PT : float := 20.0.
Definition CONTENT_H_PT : float := 90.0.
Definition BASELINE_Y_PT : float := 28.0.
Definition TICK_SMALL_PT : float := 10.0.
Definition TICK_MED_PT : float := 18.0.
Definition TICK_LARGE_PT : float := 28.0.

(** The two texts of lines 125 and 135; the apostrophe of the first is
    U+2019, here in UTF-8. *)
Definition NOTE_FALLBACK_PPI : string :=
  "Note: Using fallback PPI (system didn’t report physical mm size).".
Definition NOTE_PIXELS_PER_POINT : string :=
  " (Also fell back to pixels/point=2.0.)".

(** ** The platform: what AppKit and Quartz answer

    Every query the view makes is a field; a Quartz or backing-store query may
    raise.  Display ids and mode handles are integers. *)

Record NSScreen : Type :=
  { deviceDescription : string -> option Z }.   (* objectForKey_ *)

Record NSWindow : Type :=
  { screen : option NSScreen }.

Record Platform : Type :=
  { window : option NSWindow;                          (* self.window() *)
    mainScreen : option NSScreen;                      (* NSScreen.mainScreen() *)
    CGDisplayScreenSize : Z -> Result NSSize;          (* size in mm *)
    CGDisplayCopyDisplayMode : Z -> Result Z;
    CGDisplayModeGetPixelWidth : Z -> Result Z;        (* a size_t *)
    convertRectToBacking_ : NSRect -> Result NSRect;
    sizeWithAttributes_ : string -> TextAttrs -> NSSize }.

(** ** [RulerView] (lines 66-199) *)

(** [initWithFrame_]: [super_init] is what [NSView.initWithFrame_] answers. *)
Definition initWithFrame_ (super_init : NSRect -> bool) (frame : NSRect)
  : option RulerView :=
  if super_init frame
  then Some {| _points_per_mm := 5.0; _error_text := None |}
  else None.

Definition _display_id_for_screen (s : NSScreen) : option Z :=
  let did := deviceDescription s "NSScreenNumber" in
  match py_int did with
  | Ok n => Some n
  | Raise _ => None
  end.

(** Line 105: the window's screen, else the main screen. *)
Definition selected_screen (p : Platform) : option NSScreen :=
  match window p with
  | Some win =>
      match screen win with
      | Some s => Some s
      | None => mainScreen p
      end
  | None => mainScreen p
  end.

(** Line 106. *)
Definition selected_display_id (p : Platform) : option Z :=
  match selected_screen p with
  | Some s => _display_id_for_screen s
  | None => None
  end.

(** Lines 113-119: the body of the first [try], before any handler. *)
Definition measure_attempt (p : Platform) (display_id : Z)
  : M (option float) :=
  size_mm <- lift (CGDisplayScreenSize p display_id) ;;
  let mm_w := width size_mm in
  mode <- lift (CGDisplayCopyDisplayMode p display_id) ;;
  n <- lift (CGDisplayModeGetPixelWidth p mode) ;;
  px_w <- lift (py_float n) ;;
  if gt0 mm_w && gt0 px_w
  then (q <- lift (py_div px_w mm_w) ;; ret (Some q))
  else ret None.

(** Lines 112-121: the measured density, [None] when it is not taken. *)
Definition measure_pixels_per_mm (p : Platform) (display_id : Z)
  : M (option float) :=
  try_except (measure_attempt p display_id) (ret None).

(** Lines 129-132: the body of the second [try], before any handler. *)
Definition backing_attempt (p : Platform) : M float :=
  backing <- lift (convertRectToBacking_ p (NSMakeRect 0 0 200 1)) ;;
  pixels_per_point <- lift (py_div (width (size backing)) 200.0) ;;
  if le0 pixels_per_point then raise ValueError else ret pixels_per_point.

(** Lines 128-135: pixels per point from the backing store, else 2.0. *)
Definition backing_pixels_per_point (p : Platform) : M float :=
  try_except
    (backing_attempt p)
    (t <- get_error_text ;;
     set_error_text (Some (or_empty t ++ NOTE_PIXELS_PER_POINT)%string) ;;;
     ret 2.0).

(** Lines 108-125: the density in pixels per millimetre, measured or assumed. *)
Definition resolve_pixels_per_mm (p : Platform) : M float :=
  let display_id := selected_display_id p in
  set_error_text None ;;;
  measured <-
    match display_id with
    | Some id => measure_pixels_per_mm p id
    | None => ret None
    end ;;
  match measured with
  | Some x => ret x
  | None =>
      x <- lift (py_div FALLBACK_PPI MM_PER_INCH) ;;
      set_error_text (Some NOTE_FALLBACK_PPI) ;;;
      ret x
  end.

(** Lines 139-140. *)
Definition content_width (points_per_mm : float) : float :=
  let length_pt := int_mul RULER_LENGTH_MM points_per_mm in
  MARGIN_PT * 2.0 + length_pt.

Definition recomputeAndResize (p : Platform) : M unit :=
  let win := window p in
  pixels_per_mm <- resolve_pixels_per_mm p ;;
  pixels_per_point <- backing_pixels_per_point p ;;
  q <- lift (py_div pixels_per_mm pixels_per_point) ;;
  set_points_per_mm q ;;;
  ppm <- get_points_per_mm ;;
  let content_w := content_width ppm in
  match win with
  | Some _ => emit (setContentSize_ content_w CONTENT_H_PT)
  | None => ret tt
  end ;;;
  emit (setNeedsDisplay_ true).

(** Lines 167-172: the height of the tick at millimetre [mm]. *)
Definition tick_height (mm : Z) : float :=
  if (mm mod 10 =? 0)%Z then TICK_LARGE_PT
  else if (mm mod 5 =? 0)%Z then TICK_MED_PT
  else TICK_SMALL_PT.

Definition drawRect_ (p : Platform) (dirtyRect : NSRect) : M unit :=
  emit (set whiteColor) ;;;
  emit (NSRectFill dirtyRect) ;;;
  ppm <- get_points_per_mm ;;
  let length_pt := int_mul RULER_LENGTH_MM ppm in
  let x0 := MARGIN_PT in
  let x1 := x0 + length_pt in
  let y0 := BASELINE_Y_PT in
  emit (set blackColor) ;;;
  emit (setLineWidth_ 1.0) ;;;
  emit (moveToPoint_ x0 y0) ;;;
  emit (lineToPoint_ x1 y0) ;;;
  for_each (range 0 (RULER_LENGTH_MM + 1)) (fun mm =>
    ppm <- get_points_per_mm ;;
    let x := x0 + int_mul mm ppm in
    let h := tick_height mm in
    emit (moveToPoint_ x y0) ;;;
    emit (lineToPoint_ x (y0 + h))) ;;;
  emit stroke ;;;
  let attrs := {| NSFontAttributeName := 12.0;
                  NSForegroundColorAttributeName := blackColor |} in
  for_each (range 0 (RULER_LENGTH_MM / 10 + 1)) (fun cm =>
    ppm <- get_points_per_mm ;;
    let x := x0 + int_mul (cm * 10) ppm in
    let s := str cm in
    let sz := sizeWithAttributes_ p s attrs in
    half <- lift (py_div (width sz) 2.0) ;;
    emit (drawAtPoint_withAttributes_ s (x - half) (y0 - height sz - 4.0) attrs)) ;;;
  t <- get_error_text ;;
  match t with
  | Some text =>
      if truthy t then
        let warn_attrs := {| NSFontAttributeName := 11.0;
                             NSForegroundColorAttributeName := grayColor |} in
        emit (drawAtPoint_withAttributes_ text MARGIN_PT (CONTENT_H_PT - 18.0)
                warn_attrs)
      else ret tt
  | None => ret tt
  end.


(** ** Vocabulary of the specification, read off the code *)

(** The view is degraded when [drawRect_] would show the warning (line 192). *)
Definition degraded (v : RulerView) : bool := truthy (_error_text v).

(** [win.screen()] when there is a window (line 105). *)
Definition window_screen (p : Platform) : option NSScreen :=
  match window p with
  | Some win => screen win
  | None => None
  end.

(** The ways the physical measurement of lines 111-121 is not obtained that
    are named by the specification: no display id, a query that raises, or a
    width that is not positive. *)
Inductive physical_unavailable (p : Platform) : Prop :=
| no_display_id :
    selected_display_id p = None -> physical_unavailable p
| screen_size_raises id e :
    selected_display_id p = Some id ->
    CGDisplayScreenSize p id = Raise e -> physical_unavailable p
| display_mode_raises id e :
    selected_display_id p = Some id ->
    CGDisplayCopyDisplayMode p id = Raise e -> physical_unavailable p
| pixel_width_raises id mode e :
    selected_display_id p = Some id ->
    CGDisplayCopyDisplayMode p id = Ok mode ->
    CGDisplayModeGetPixelWidth p mode = Raise e -> physical_unavailable p
| physical_width_not_positive id size_mm :
    selected_display_id p = Some id ->
    CGDisplayScreenSize p id = Ok size_mm ->
    le0 (width size_mm) = true -> physical_unavailable p
| pixel_width_not_positive id mode n :
    selected_display_id p = Some id ->
    CGDisplayCopyDisplayMode p id = Ok mode ->
    CGDisplayModeGetPixelWidth p mode = Ok n ->
    (n <= 0)%Z -> physical_unavailable p.

(** The backing-store query of lines 129-132 raises or gives a ratio [<= 0]. *)
Inductive ratio_unavailable (p : Platform) : Prop :=
| backing_raises e :
    convertRectToBacking_ p (NSMakeRect 0 0 200 1) = Raise e ->
    ratio_unavailable p
| ratio_not_positive backing :
    convertRectToBacking_ p (NSMakeRect 0 0 200 1) = Ok backing ->
    le0 (width (size backing) / 200.0) = true ->
    ratio_unavailable p.

(** The platform [p] with the physical-size query failing. *)
Definition with_failing_screen_size (p : Platform) : Platform :=
  {| window := window p;
     mainScreen := mainScreen p;
     CGDisplayScreenSize := fun _ => Raise PlatformError;
     CGDisplayCopyDisplayMode := CGDisplayCopyDisplayMode p;
     CGDisplayModeGetPixelWidth := CGDisplayModeGetPixelWidth p;
     convertRectToBacking_ := convertRectToBacking_ p;
     sizeWithAttributes_ := sizeWithAttributes_ p |}.

(** Which effects draw text. *)
Definition draws_text (e : Effect) : bool :=
  match e with
  | drawAtPoint_withAttributes_ _ _ _ _ => true
  | _ => false
  end.

(** The content width asked of the window, if any. *)
Fixpoint requested_content_width (out : list Effect) : option float :=
  match out with
  | [] => None
  | setContentSize_ w _ :: _ => Some w
  | _ :: rest => requested_content_width rest
  end.

(** ** Sample platforms *)

Module Sample.

Definition text_size (s : string) (attrs : TextAttrs) : NSSize :=
  {| width := 8.0; height := 14.0 |}.

Definition builtin_screen : NSScreen :=
  {| deviceDescription :=
       fun key => if String.eqb key "NSScreenNumber" then Some 1%Z else None |}.

(** A 300 mm wide display, 3000 pixels across, two pixels per point. *)
Definition retina : Platform :=
  {| window := Some {| screen := Some builtin_screen |};
     mainScreen := Some builtin_screen;
     CGDisplayScreenSize := fun _ => Ok {| width := 300.0; height := 190.0 |};
     CGDisplayCopyDisplayMode := fun _ => Ok 7%Z;
     CGDisplayModeGetPixelWidth := fun _ => Ok 3000%Z;
     convertRectToBacking_ := fun _ => Ok (NSMakeRect 0 0 400 2);
     sizeWithAttributes_ := text_size |}.

(** A virtual display that reports no physical size. *)
Definition virtual_display : Platform :=
  {| window := Some {| screen := Some builtin_screen |};
     mainScreen := Some builtin_screen;
     CGDisplayScreenSize := fun _ => Ok {| width := 0.0; height := 0.0 |};
     CGDisplayCopyDisplayMode := fun _ => Ok 7%Z;
     CGDisplayModeGetPixelWidth := fun _ => Ok 1920%Z;
     convertRectToBacking_ := fun _ => Ok (NSMakeRect 0 0 200 1);
     sizeWithAttributes_ := text_size |}.

(** No physical size and no backing store. *)
Definition blind : Platform :=
  {| window := Some {| screen := Some builtin_screen |};
     mainScreen := Some builtin_screen;
     CGDisplayScreenSize := fun _ => Raise PlatformError;
     CGDisplayCopyDisplayMode := fun _ => Ok 7%Z;
     CGDisplayModeGetPixelWidth := fun _ => Ok 1920%Z;
     convertRectToBacking_ := fun _ => Raise PlatformError;
     sizeWithAttributes_ := text_size |}.

(** A window that is on no screen yet, on a machine with a main screen. *)
Definition detached : Platform :=
  {| window := Some {| screen := None |};
     mainScreen := Some builtin_screen;
     CGDisplayScreenSize := fun _ => Ok {| width := 300.0; height := 190.0 |};
     CGDisplayCopyDisplayMode := fun _ => Ok 7%Z;
     CGDisplayModeGetPixelWidth := fun _ => Ok 3000%Z;
     convertRectToBacking_ := fun _ => Ok (NSMakeRect 0 0 400 2);
     sizeWithAttributes_ := text_size |}.

(** A window on no screen, on a machine without any screen. *)
Definition headless : Platform :=
  {| window := Some {| screen := None |};
     mainScreen := None;
     CGDisplayScreenSize := fun _ => Ok {| width := 300.0; height := 190.0 |};
     CGDisplayCopyDisplayMode := fun _ => Ok 7%Z;
     CGDisplayModeGetPixelWidth := fun _ => Ok 3000%Z;
     convertRectToBacking_ := fun _ => Ok (NSMakeRect 0 0 400 2);
     sizeWithAttributes_ := text_size |}.

Definition fresh : RulerView :=
  {| _points_per_mm := 5.0; _error_text := None |}.

Definition stale : RulerView :=
  {| _points_per_mm := 3.5; _error_text := Some "stale"%string |}.

Definition frame : NSRect := NSMakeRect 0 0 800 90.

End Sample.

(** ** The responder methods and the delegate (lines 76-93 and 228-235)

    [keyDown_] and [viewDidMoveToWindow] also call the window and the
    superclass; a [Call] is one of those or a call of the drawing toolkit. *)

Record NSEvent : Type :=
  { charactersIgnoringModifiers : option string }.

Record NSNotification : Type :=
  { name : string }.

(** ["\x1b"] *)
Definition ESC : string := String (ascii_of_nat 27) EmptyString.

Inductive Call : Type :=
| toolkit (e : Effect)
| performClose_
| super_keyDown_ (event : NSEvent)
| super_viewDidMoveToWindow.

Definition R (A : Type) : Type :=
  RulerView -> Result A * RulerView * list Call.

(** A view method of the earlier sections, called from a responder method. *)
Definition from_view {A} (m : M A) : R A :=
  fun v => let '(r, v1, out) := m v in (r, v1, map toolkit out).

Definition outcome_of {A} (run : Result A * RulerView * list Call) : Result A :=
  fst (fst run).
Definition view_after {A} (run : Result A * RulerView * list Call) : RulerView :=
  snd (fst run).
Definition calls_of {A} (run : Result A * RulerView * list Call) : list Call :=
  snd run.

Definition isOpaque : bool := true.

Definition acceptsFirstResponder : bool := true.

(** [chars == "\x1b"]; [chars] is [None] for an event without characters. *)
Definition is_escape (chars : option string) : bool :=
  match chars with
  | Some s => String.eqb s ESC
  | None => false
  end.

Definition keyDown_ (p : Platform) (event : NSEvent) : R unit :=
  fun v =>
    let chars := charactersIgnoringModifiers event in
    if is_escape chars then
      match window p with
      | Some _ => (Ok tt, v, [performClose_])
      | None => (Ok tt, v, [])
      end
    else (Ok tt, v, [super_keyDown_ event]).

Definition viewDidMoveToWindow (p : Platform) : R unit :=
  fun v =>
    let '(r, v1, out) := from_view (recomputeAndResize p) v in
    (r, v1, super_viewDidMoveToWindow :: out).

(** [AppDelegate]: both handlers run [self.view.recomputeAndResize()]. *)
Definition screenParamsChanged_ (p : Platform) (notification : NSNotification)
  : R unit :=
  from_view (recomputeAndResize p).

Definition windowDidChangeScreen_ (p : Platform) (notification : NSNotification)
  : R unit :=
  from_view (recomputeAndResize p).

Definition applicationShouldTerminateAfterLastWindowClosed_ : bool := true.

(** ** The event loop as the view sees it

    The events delivered to one view, each with the platform as it is when
    the event arrives; a method that raises ends the run. *)

Inductive Event : Type :=
| DidMoveToWindow (p : Platform)
| ScreenParamsChanged (p : Platform) (notification : NSNotification)
| WindowDidChangeScreen (p : Platform) (notification : NSNotification)
| KeyDown (p : Platform) (event : NSEvent)
| DrawRect (p : Platform) (dirtyRect : NSRect).

Definition deliver (e : Event) : R unit :=
  match e with
  | DidMoveToWindow p => viewDidMoveToWindow p
  | ScreenParamsChanged p n => screenParamsChanged_ p n
  | WindowDidChangeScreen p n => windowDidChangeScreen_ p n
  | KeyDown p event => keyDown_ p event
  | DrawRect p dirtyRect => from_view (drawRect_ p dirtyRect)
  end.

Fixpoint deliver_all (events : list Event) : R unit :=
  match events with
  | [] => fun v => (Ok tt, v, [])
  | e :: rest =>
      fun v =>
        match deliver e v with
        | (Ok _, v1, out1) =>
            let '(r, v2, out2) := deliver_all rest v1 in (r, v2, out1 ++ out2)
        | (Raise x, v1, out1) => (Raise x, v1, out1)
        end
  end.

(** The platform an event resolves the scale on, if it resolves it. *)
Definition resolves_on (e : Event) : option Platform :=
  match e with
  | DidMoveToWindow p => Some p
  | ScreenParamsChanged p _ => Some p
  | WindowDidChangeScreen p _ => Some p
  | KeyDown _ _ => None
  | DrawRect _ _ => None
  end.

(** The platform of the last resolving event of a run. *)
Fixpoint last_resolution (events : list Event) : option Platform :=
  match events with
  | [] => None
  | e :: rest =>
      match last_resolution rest with
      | Some p => Some p
      | None => resolves_on e
      end
  end.

(** ** More vocabulary for the statements below *)

(** The calls that go to the window or mark the view dirty. *)
Definition is_window_command (e : Effect) : bool :=
  match e with
  | setContentSize_ _ _ => true
  | setNeedsDisplay_ _ => true
  | _ => false
  end.

(** The requests to redisplay among the calls of a run of events. *)
Definition is_redisplay_request (c : Call) : bool :=
  match c with
  | toolkit (setNeedsDisplay_ _) => true
  | _ => false
  end.

Definition is_resolving (e : Event) : bool :=
  match resolves_on e with
  | Some _ => true
  | None => false
  end.

Definition is_stroke (e : Effect) : bool :=
  match e with
  | stroke => true
  | _ => false
  end.

(** The platform [p] with another answer of [NSScreen.mainScreen()]. *)
Definition with_main_screen (p : Platform) (m : option NSScreen) : Platform :=
  {| window := window p;
     mainScreen := m;
     CGDisplayScreenSize := CGDisplayScreenSize p;
     CGDisplayCopyDisplayMode := CGDisplayCopyDisplayMode p;
     CGDisplayModeGetPixelWidth := CGDisplayModeGetPixelWidth p;
     convertRectToBacking_ := convertRectToBacking_ p;
     sizeWithAttributes_ := sizeWithAttributes_ p |}.

(** The platform [p] with its window on the screen [s]. *)
Definition with_window_on (p : Platform) (s : NSScreen) : Platform :=
  {| window := Some {| screen := Some s |};
     mainScreen := mainScreen p;
     CGDisplayScreenSize := CGDisplayScreenSize p;
     CGDisplayCopyDisplayMode := CGDisplayCopyDisplayMode p;
     CGDisplayModeGetPixelWidth := CGDisplayModeGetPixelWidth p;
     convertRectToBacking_ := convertRectToBacking_ p;
     sizeWithAttributes_ := sizeWithAttributes_ p |}.

Module Scenario.

(** A backing store that answers a NaN width. *)
Definition nan_backing : Platform :=
  {| window := window Sample.retina;
     mainScreen := mainScreen Sample.retina;
     CGDisplayScreenSize := CGDisplayScreenSize Sample.retina;
     CGDisplayCopyDisplayMode := CGDisplayCopyDisplayMode Sample.retina;
     CGDisplayModeGetPixelWidth := CGDisplayModeGetPixelWidth Sample.retina;
     convertRectToBacking_ := fun _ => Ok (NSMakeRect 0 0 nan 1);
     sizeWithAttributes_ := Sample.text_size |}.

Definition escape_key : NSEvent :=
  {| charactersIgnoringModifiers := Some ESC |}.

Definition letter_q : NSEvent :=
  {| charactersIgnoringModifiers := Some "q"%string |}.

Definition changed : NSNotification :=
  {| name := "NSWindowDidChangeScreenNotification" |}.

End Scenario.

(** ** Comparisons with zero

    [x > 0.0], [x <= 0] and [x == 0.0] through the specification of the
    primitive comparisons: the sign and class of [x] decide all three. *)

Ltac float_zero_cases x :=
  unfold gt0, le0, is0;
  rewrite ?ltb_spec, ?leb_spec, ?eqb_spec;
  change (Prim2SF 0%float) with (S754_zero false);
  destruct (Prim2SF x) as [ [|] | [|] | | [|] ? ? ]; cbn; congruence.

Lemma gt0_not_is0 (x : float) : gt0 x = true -> is0 x = false.
Proof. float_zero_cases x. Qed.

Lemma gt0_not_le0 (x : float) : gt0 x = true -> le0 x = false.
Proof. float_zero_cases x. Qed.

Lemma le0_not_gt0 (x : float) : le0 x = true -> gt0 x = false.
Proof. float_zero_cases x. Qed.

Lemma is0_le0 (x : float) : is0 x = true -> le0 x = true.
Proof. float_zero_cases x. Qed.

Lemma not_le0_not_is0 (x : float) : le0 x = false -> is0 x = false.
Proof. float_zero_cases x. Qed.

Create HintDb float_zero.
#[local] Hint Resolve gt0_not_is0 gt0_not_le0 le0_not_gt0 is0_le0 not_le0_not_is0
  : float_zero.

Lemma py_div_ok (a b : float) : is0 b = false -> py_div a b = Ok (a / b)%float.
Proof. unfold py_div. intros ->. reflexivity. Qed.

Local Open Scope Z_scope.

(** ** [float(n)] on integers

    The conversion is [binary_normalize] at exponent 0.  On a non-zero integer
    it is [binary_round]: align the mantissa to 53 bits or more, shift right
    to 53 bits, round to even, shift once more if the rounding carried.  The
    result is a canonical finite number of the integer's sign whose exponent
    is bounded by the integer's size, or the infinity of that sign. *)

Module BinaryRound.

(** The digit count of [SpecFloat] is the binary logarithm plus one. *)
Lemma digits2_pos_log2 (p : positive) :
  Zpos (digits2_pos p) = Z.log2 (Zpos p) + 1.
Proof.
  assert (E : forall q, digits2_pos q = Pos.size q).
  { induction q; simpl; congruence. }
  rewrite E. destruct p; simpl; lia.
Qed.

(** One shift halves the mantissa; [p] shifts divide it by [2 ^ p]. *)
Lemma shr_1_m (r : shr_record) :
  0 <= shr_m r -> shr_m (shr_1 r) = shr_m r / 2.
Proof.
  destruct r as [m b s]; simpl. intros Hm.
  rewrite <- Z.div2_div.
  destruct m as [|[q|q|]|q]; simpl; try reflexivity; lia.
Qed.

Lemma iter_shr_1_m (p : positive) :
  forall r, 0 <= shr_m r ->
    shr_m (iter_pos shr_1 p r) = shr_m r / 2 ^ Zpos p.
Proof.
  induction p as [p IH|p IH|]; intros r Hr; simpl iter_pos.
  - assert (H1 : 0 <= shr_m (shr_1 r)).
    { rewrite shr_1_m by assumption. apply Z.div_pos; lia. }
    assert (H2 : 0 <= shr_m (iter_pos shr_1 p (shr_1 r))).
    { rewrite IH by assumption. apply Z.div_pos; lia. }
    rewrite IH, IH, shr_1_m by assumption.
    rewrite !Z.div_div by lia. f_equal.
    rewrite Pos2Z.inj_xI.
    replace (2 * Z.pos p + 1) with (1 + Z.pos p + Z.pos p) by lia.
    rewrite !Z.pow_add_r by lia. lia.
  - assert (H2 : 0 <= shr_m (iter_pos shr_1 p r)).
    { rewrite IH by assumption. apply Z.div_pos; lia. }
    rewrite IH, IH by assumption.
    rewrite !Z.div_div by lia. f_equal.
    rewrite Pos2Z.inj_xO. rewrite <- Z.pow_add_r by lia. f_equal. lia.
  - rewrite shr_1_m by assumption. reflexivity.
Qed.

Lemma shr_record_of_loc_m (m : Z) (l : location) :
  shr_m (shr_record_of_loc m l) = m.
Proof. destruct l as [|[ | | ]]; reflexivity. Qed.

(** Away from the subnormal range, [shr_fexp] drops the bits beyond 53. *)
Lemma shr_fexp_m (q : positive) (e : Z) (l : location) :
  -52 <= e ->
  shr_m (fst (shr_fexp prec emax (Zpos q) e l))
    = Zpos q / 2 ^ Z.max 0 (Z.log2 (Zpos q) - 52)
  /\ snd (shr_fexp prec emax (Zpos q) e l)
    = e + Z.max 0 (Z.log2 (Zpos q) - 52).
Proof.
  intros He. unfold shr_fexp, Zdigits2, fexp, emin.
  rewrite digits2_pos_log2.
  pose proof (Z.log2_nonneg (Zpos q)) as Hl.
  change prec with 53. change emax with 1024.
  rewrite Z.max_l by lia.
  replace (Z.log2 (Z.pos q) + 1 + e - 53 - e) with (Z.log2 (Zpos q) - 52) by lia.
  destruct (Z.log2 (Zpos q) - 52) as [|p|p] eqn:En; simpl shr; cbn [fst snd].
  - rewrite shr_record_of_loc_m, Z.div_1_r. split; [reflexivity | lia].
  - rewrite iter_shr_1_m by (rewrite shr_record_of_loc_m; lia).
    rewrite shr_record_of_loc_m, Z.max_r by lia. split; reflexivity.
  - rewrite shr_record_of_loc_m, Z.max_l by lia. rewrite Z.div_1_r. split; [reflexivity | lia].
Qed.

Lemma round_nearest_even_bounds (m : Z) (l : location) :
  m <= round_nearest_even m l <= m + 1.
Proof.
  destruct l as [|[ | | ]]; simpl; try lia.
  destruct (Z.even m); lia.
Qed.

Lemma iter_xO_pow (m k : positive) :
  Zpos (Pos.iter xO m k) = Zpos m * 2 ^ Zpos k.
Proof.
  induction k as [|k IH] using Pos.peano_ind.
  - simpl. lia.
  - rewrite Pos.iter_succ, Pos2Z.inj_xO, IH, Pos2Z.inj_succ, Z.pow_succ_r by lia. lia.
Qed.

(** After alignment the mantissa has at least 53 bits. *)
Lemma shl_align_fexp_int (m : positive) :
  exists mz ez,
    shl_align m 0 (fexp prec emax (Zpos (digits2_pos m) + 0)) = (mz, ez)
    /\ 52 <= Z.log2 (Zpos mz) /\ -52 <= ez <= 0
    /\ ez + Z.log2 (Zpos mz) <= Z.max 52 (Z.log2 (Zpos m)).
Proof.
  unfold shl_align, fexp, emin. rewrite digits2_pos_log2.
  pose proof (Z.log2_nonneg (Zpos m)) as Hl.
  change prec with 53. change emax with 1024.
  rewrite Z.max_l by lia.
  destruct (Z.log2 (Z.pos m) + 1 + 0 - 53 - 0) as [|d|d] eqn:Ed.
  - exists m, 0. split; [reflexivity | lia].
  - exists m, 0. split; [reflexivity | lia].
  - exists (Pos.iter xO m d), (Z.log2 (Z.pos m) + 1 + 0 - 53). split; [reflexivity|].
    rewrite iter_xO_pow, Z.log2_mul_pow2 by lia. lia.
Qed.

(** Rounding the integer [m]: canonical, of sign [sx], exponent at most
    [log2 m - 51]; an infinity only when that exponent exceeds 971. *)
Lemma binary_round_int (sx : bool) (m : positive) :
  exists m' e',
    binary_round prec emax sx m 0
      = (if e' <=? emax - prec then S754_finite sx m' e' else S754_infinity sx)
    /\ canonical_mantissa prec emax m' e' = true
    /\ e' <= Z.max 1 (Z.log2 (Zpos m) - 51).
Proof.
  unfold binary_round.
  destruct (shl_align_fexp_int m) as (mz & ez & -> & Hmz & Hez & Hsum).
  unfold binary_round_aux.
  destruct (shr_fexp_m mz ez loc_Exact) as [Hm1 He1]; [lia|].
  destruct (shr_fexp prec emax (Zpos mz) ez loc_Exact) as [r1 e1].
  cbn [fst snd] in Hm1, He1.
  pose proof (round_nearest_even_bounds (shr_m r1) (loc_of_shr_record r1)) as Hrd.
  set (m2 := round_nearest_even (shr_m r1) (loc_of_shr_record r1)) in *.
  (* the first shift leaves exactly 53 bits *)
  set (s1 := Z.max 0 (Z.log2 (Zpos mz) - 52)) in *.
  assert (Hs1 : s1 = Z.log2 (Zpos mz) - 52) by lia.
  pose proof (Z.log2_spec (Zpos mz) eq_refl) as Hspec.
  assert (Hr1 : 2 ^ 52 <= shr_m r1 < 2 ^ 53).
  { rewrite Hm1.
    replace (Z.log2 (Zpos mz)) with (52 + s1) in Hspec by lia.
    replace (Z.succ (52 + s1)) with (53 + s1) in Hspec by lia.
    rewrite !Z.pow_add_r in Hspec by lia.
    assert (0 < 2 ^ s1) by (apply Z.pow_pos_nonneg; lia).
    split.
    - apply Z.div_le_lower_bound; lia.
    - apply Z.div_lt_upper_bound; lia. }
  assert (Hm2 : 2 ^ 52 <= m2 <= 2 ^ 53) by lia.
  destruct m2 as [|q|q] eqn:Eq2; try lia.
  destruct (shr_fexp_m q e1 loc_Exact) as [Hm3 He3]; [lia|].
  destruct (shr_fexp prec emax (Zpos q) e1 loc_Exact) as [r3 e3].
  cbn [fst snd] in Hm3, He3.
  assert (Hr3 : 2 ^ 52 <= shr_m r3 < 2 ^ 53 /\ e3 <= e1 + 1).
  { destruct (Z.eq_dec (Zpos q) (2 ^ 53)) as [E|NE].
    - rewrite Hm3, He3, E, Z.log2_pow2 by lia. split; [split; reflexivity | lia].
    - assert (L : Z.log2 (Zpos q) = 52) by (apply Z.log2_unique; lia).
      rewrite Hm3, He3, L. change (Z.max 0 (52 - 52)) with 0.
      rewrite Z.div_1_r. lia. }
  destruct Hr3 as [Hr3 Hle3].
  destruct (shr_m r3) as [|m3|m3] eqn:E3; try lia.
  exists m3, e3. split; [reflexivity|]. split.
  - unfold canonical_mantissa, fexp, emin. rewrite digits2_pos_log2.
    assert (L3 : Z.log2 (Zpos m3) = 52) by (apply Z.log2_unique; lia).
    rewrite L3. change prec with 53. change emax with 1024.
    apply Z.eqb_eq. lia.
  - lia.
Qed.

End BinaryRound.

(** [float(n)] of a positive [size_t] does not raise and is above zero. *)
Lemma py_float_pos (n : Z) :
  0 < n < 2 ^ 64 ->
  py_float n = Ok (float_of_Z n) /\ gt0 (float_of_Z n) = true.
Proof.
  intros [Hpos Hlt]. unfold py_float, float_of_Z, gt0.
  destruct n as [|m|m]; try lia. cbn [binary_normalize].
  destruct (BinaryRound.binary_round_int false m) as (m' & e' & -> & Hcan & He).
  assert (Hl : Z.log2 (Zpos m) < 64) by (apply Z.log2_lt_pow2; lia).
  assert (Hle : (e' <=? emax - prec) = true).
  { apply Z.leb_le. change (emax - prec) with 971. lia. }
  rewrite Hle. split; [reflexivity|].
  rewrite ltb_spec, Prim2SF_SF2Prim.
  - reflexivity.
  - cbn [valid_binary]. unfold bounded. rewrite Hcan, Hle. reflexivity.
Qed.

(** [float(n)] of an integer that is not positive raises or is not above
    zero. *)
Lemma py_float_nonpos (n : Z) :
  n <= 0 ->
  (exists e, py_float n = Raise e) \/
  py_float n = Ok (float_of_Z n) /\ gt0 (float_of_Z n) = false.
Proof.
  intros Hn. unfold py_float, float_of_Z, gt0.
  destruct n as [|m|m]; try lia; cbn [binary_normalize].
  - right. split; reflexivity.
  - destruct (BinaryRound.binary_round_int true m) as (m' & e' & -> & Hcan & He).
    destruct (e' <=? emax - prec) eqn:Hle; [right | left; eexists; reflexivity].
    split; [reflexivity|].
    rewrite ltb_spec, Prim2SF_SF2Prim.
    + reflexivity.
    + cbn [valid_binary]. unfold bounded. rewrite Hcan, Hle. reflexivity.
Qed.

Local Open Scope float_scope.

(** ** Running the stages of [recomputeAndResize] *)

Ltac run :=
  cbv [bind ret lift raise try_except emit
       get_points_per_mm get_error_text set_points_per_mm set_error_text
       result_of view_of effects_of fst snd app];
  cbn [_points_per_mm _error_text].

Ltac step H := rewrite H; run.

Section Stages.

Variable p : Platform.

(** The measurement succeeds on a display that reports positive widths. *)
Lemma measure_ok (id : Z) (size_mm : NSSize) (mode n : Z) :
  CGDisplayScreenSize p id = Ok size_mm ->
  CGDisplayCopyDisplayMode p id = Ok mode ->
  CGDisplayModeGetPixelWidth p mode = Ok n ->
  gt0 (width size_mm) = true ->
  (0 < n < 2 ^ 64)%Z ->
  forall v, measure_pixels_per_mm p id v
            = (Ok (Some (float_of_Z n / width size_mm)), v, []).
Proof.
  intros Hs Hm Hn Hmm Hpx v.
  destruct (py_float_pos n Hpx) as [Hf Hgt].
  unfold measure_pixels_per_mm, measure_attempt. run.
  step Hs. step Hm. step Hn. step Hf. rewrite Hmm, Hgt. run.
  rewrite py_div_ok by auto with float_zero. reflexivity.
Qed.

(** The measurement never raises, touches neither the view nor the window,
    and its answer does not depend on the view. *)
Lemma measure_total (id : Z) :
  exists r, forall v, measure_pixels_per_mm p id v = (Ok r, v, []).
Proof.
  unfold measure_pixels_per_mm, measure_attempt. run.
  destruct (CGDisplayScreenSize p id) as [size_mm|e]; run;
    [|exists None; reflexivity].
  destruct (CGDisplayCopyDisplayMode p id) as [mode|e]; run;
    [|exists None; reflexivity].
  destruct (CGDisplayModeGetPixelWidth p mode) as [n|e]; run;
    [|exists None; reflexivity].
  destruct (py_float n) as [px_w|e]; run;
    [|exists None; reflexivity].
  destruct (gt0 (width size_mm)) eqn:Hmm; run;
    [|exists None; reflexivity].
  destruct (gt0 px_w) eqn:Hpx; run;
    [|exists None; reflexivity].
  rewrite py_div_ok by auto with float_zero.
  exists (Some (px_w / width size_mm)). reflexivity.
Qed.

(** The measurement is not taken in any of the cases the specification names. *)
Lemma measure_unavailable (id : Z) :
  selected_display_id p = Some id ->
  physical_unavailable p ->
  forall v, measure_pixels_per_mm p id v = (Ok None, v, []).
Proof.
  intros Hid Hun v. unfold measure_pixels_per_mm, measure_attempt. run.
  destruct Hun as [H|id' e H Hs|id' e H Hm|id' mode e H Hm Hn
                  |id' size_mm H Hs Hle|id' mode n H Hm Hn Hle];
    rewrite Hid in H; try discriminate; injection H as <-.
  - step Hs. reflexivity.
  - destruct (CGDisplayScreenSize p id); run; [step Hm|]; reflexivity.
  - destruct (CGDisplayScreenSize p id); run; [step Hm; step Hn|]; reflexivity.
  - step Hs.
    destruct (CGDisplayCopyDisplayMode p id); run; [|reflexivity].
    destruct (CGDisplayModeGetPixelWidth p _); run; [|reflexivity].
    destruct (py_float _); run; [|reflexivity].
    rewrite le0_not_gt0 by assumption. reflexivity.
  - destruct (CGDisplayScreenSize p id); run; [|reflexivity].
    step Hm. step Hn.
    destruct (py_float_nonpos n Hle) as [[e He]|[He Hgt]].
    + step He. reflexivity.
    + step He. rewrite Hgt, andb_false_r. reflexivity.
Qed.

Lemma fallback_density : py_div FALLBACK_PPI MM_PER_INCH = Ok 10.0.
Proof. reflexivity. Qed.

(** The density stage never raises and leaves [_points_per_mm] alone; the
    note it leaves is empty or the fallback one, whatever the view held. *)
Lemma resolve_total :
  exists x t,
    (t = None \/ t = Some NOTE_FALLBACK_PPI /\ x = 10.0) /\
    forall v, resolve_pixels_per_mm p v
              = (Ok x, {| _points_per_mm := _points_per_mm v; _error_text := t |}, []).
Proof.
  unfold resolve_pixels_per_mm.
  destruct (selected_display_id p) as [id|].
  - destruct (measure_total id) as [[x|] Hr].
    + exists x, None. split; [now left|]. intros v. run. step Hr. reflexivity.
    + exists 10.0, (Some NOTE_FALLBACK_PPI). split; [now right|].
      intros v. run. step Hr. step fallback_density. reflexivity.
  - exists 10.0, (Some NOTE_FALLBACK_PPI). split; [now right|].
    intros v. run. step fallback_density. reflexivity.
Qed.

Lemma resolve_unavailable :
  physical_unavailable p ->
  forall v, resolve_pixels_per_mm p v
            = (Ok 10.0,
               {| _points_per_mm := _points_per_mm v;
                  _error_text := Some NOTE_FALLBACK_PPI |}, []).
Proof.
  intros Hun v. unfold resolve_pixels_per_mm.
  destruct (selected_display_id p) as [id|] eqn:Hid; run.
  - step (measure_unavailable id Hid Hun). step fallback_density. reflexivity.
  - step fallback_density. reflexivity.
Qed.

Lemma resolve_measured (id : Z) (size_mm : NSSize) (mode n : Z) :
  selected_display_id p = Some id ->
  CGDisplayScreenSize p id = Ok size_mm ->
  CGDisplayCopyDisplayMode p id = Ok mode ->
  CGDisplayModeGetPixelWidth p mode = Ok n ->
  gt0 (width size_mm) = true ->
  (0 < n < 2 ^ 64)%Z ->
  forall v, resolve_pixels_per_mm p v
            = (Ok (float_of_Z n / width size_mm),
               {| _points_per_mm := _points_per_mm v; _error_text := None |}, []).
Proof.
  intros Hid Hs Hm Hn Hmm Hpx v. unfold resolve_pixels_per_mm.
  rewrite Hid. run. step (measure_ok id size_mm mode n Hs Hm Hn Hmm Hpx).
  reflexivity.
Qed.

(** The ratio stage: a measured ratio leaves the view alone. *)
Lemma backing_measured (backing : NSRect) :
  convertRectToBacking_ p (NSMakeRect 0 0 200 1) = Ok backing ->
  le0 (width (size backing) / 200.0) = false ->
  forall v, backing_pixels_per_point p v
            = (Ok (width (size backing) / 200.0), v, []).
Proof.
  intros Hb Hle v. unfold backing_pixels_per_point, backing_attempt. run.
  step Hb. rewrite (py_div_ok _ 200.0 eq_refl), Hle. reflexivity.
Qed.

(** The ratio stage: on a failure it answers 2.0 and appends its note. *)
Lemma backing_fallback :
  ratio_unavailable p ->
  forall v, backing_pixels_per_point p v
            = (Ok 2.0,
               {| _points_per_mm := _points_per_mm v;
                  _error_text :=
                    Some (or_empty (_error_text v) ++ NOTE_PIXELS_PER_POINT)%string |},
               []).
Proof.
  intros Hun v. unfold backing_pixels_per_point, backing_attempt. run.
  destruct Hun as [e Hb|backing Hb Hle].
  - step Hb. reflexivity.
  - step Hb. rewrite (py_div_ok _ 200.0 eq_refl), Hle. reflexivity.
Qed.

Lemma ratio_cases :
  ratio_unavailable p \/
  exists backing,
    convertRectToBacking_ p (NSMakeRect 0 0 200 1) = Ok backing /\
    le0 (width (size backing) / 200.0) = false.
Proof.
  destruct (convertRectToBacking_ p (NSMakeRect 0 0 200 1)) as [backing|e] eqn:Hb.
  - destruct (le0 (width (size backing) / 200.0)) eqn:Hle.
    + left. now apply ratio_not_positive with backing.
    + right. now exists backing.
  - left. now apply backing_raises with e.
Qed.

(** The ratio the second stage answers is never zero. *)
Lemma backing_total (v : RulerView) :
  exists y t,
    is0 y = false /\
    backing_pixels_per_point p v
    = (Ok y, {| _points_per_mm := _points_per_mm v; _error_text := t |}, []).
Proof.
  destruct (ratio_cases) as [Hun|(backing & Hb & Hle)].
  - eexists _, _. split; [|apply (backing_fallback Hun)]. reflexivity.
  - exists (width (size backing) / 200.0), (_error_text v).
    split; [auto with float_zero|].
    rewrite (backing_measured backing Hb Hle). destruct v; reflexivity.
Qed.

(** [recomputeAndResize] in terms of its two stages: it never raises, stores
    the quotient of their answers, keeps the note the second stage left, and
    asks the window (when there is one) for the matching content width. *)
Lemma recompute_stages (v : RulerView) :
  exists x y,
    result_of (resolve_pixels_per_mm p v) = Ok x /\
    result_of (backing_pixels_per_point p (view_of (resolve_pixels_per_mm p v)))
      = Ok y /\
    recomputeAndResize p v
    = (Ok tt,
       {| _points_per_mm := x / y;
          _error_text :=
            _error_text
              (view_of (backing_pixels_per_point p
                          (view_of (resolve_pixels_per_mm p v)))) |},
       match window p with
       | Some _ => [setContentSize_ (content_width (x / y)) CONTENT_H_PT]
       | None => []
       end ++ [setNeedsDisplay_ true]).
Proof.
  destruct (resolve_total) as (x & t & _ & Hr).
  specialize (Hr v).
  destruct (backing_total {| _points_per_mm := _points_per_mm v; _error_text := t |})
    as (y & t' & Hy & Hb).
  exists x, y. unfold recomputeAndResize. rewrite Hr. run. rewrite Hb. run.
  split; [reflexivity|]. split; [reflexivity|].
  rewrite Hr. run. rewrite Hb. run.
  rewrite (py_div_ok _ _ Hy). run.
  destruct (window p); reflexivity.
Qed.

(** The whole of [recomputeAndResize] depends on the platform alone. *)
Lemma recompute_closed :
  exists final out, forall v, recomputeAndResize p v = (Ok tt, final, out).
Proof.
  destruct (resolve_total) as (x & t & _ & Hr).
  unfold recomputeAndResize.
  destruct (ratio_cases) as [Hun|(backing & Hb & Hle)]; destruct (window p).
  all: eexists _, _; intros v; run; rewrite Hr; run.
  1, 2: rewrite (backing_fallback Hun); run;
        rewrite (py_div_ok _ 2.0 eq_refl); reflexivity.
  all: rewrite (backing_measured backing Hb Hle); run;
       rewrite py_div_ok by auto with float_zero; reflexivity.
Qed.

End Stages.

(** ** Running [drawRect_] *)

Lemma for_each_emits {A} (out : A -> RulerView -> list Effect) (xs : list A)
      (v : RulerView) :
  for_each xs (fun x v' => (Ok tt, v', out x v')) v
  = (Ok tt, v, flat_map (fun x => out x v) xs).
Proof.
  induction xs as [|x xs IH]; [reflexivity|].
  cbn [for_each flat_map]. unfold bind at 1. rewrite IH. reflexivity.
Qed.

Ltac run_draw :=
  cbv [bind ret lift raise emit
       get_points_per_mm get_error_text py_div is0 PrimFloat.eqb
       result_of view_of effects_of fst snd].

(** [drawRect_] never raises, returns the view it was given, and emits the
    background, the baseline, two path commands per millimetre, the stroke,
    one text per centimetre and, on a degraded view, the warning. *)
Lemma drawRect_run (p : Platform) (dirtyRect : NSRect) (v : RulerView) :
  drawRect_ p dirtyRect v
  = (Ok tt, v,
     [set whiteColor; NSRectFill dirtyRect; set blackColor; setLineWidth_ 1.0;
      moveToPoint_ MARGIN_PT BASELINE_Y_PT;
      lineToPoint_ (MARGIN_PT + int_mul RULER_LENGTH_MM (_points_per_mm v))
        BASELINE_Y_PT]
     ++ flat_map
          (fun mm =>
             [moveToPoint_ (MARGIN_PT + int_mul mm (_points_per_mm v)) BASELINE_Y_PT;
              lineToPoint_ (MARGIN_PT + int_mul mm (_points_per_mm v))
                (BASELINE_Y_PT + tick_height mm)])
          (range 0 151)
     ++ [stroke]
     ++ flat_map
          (fun cm =>
             let attrs := {| NSFontAttributeName := 12.0;
                             NSForegroundColorAttributeName := blackColor |} in
             let sz := sizeWithAttributes_ p (str cm) attrs in
             [drawAtPoint_withAttributes_ (str cm)
                (MARGIN_PT + int_mul (cm * 10) (_points_per_mm v) - width sz / 2.0)
                (BASELINE_Y_PT - height sz - 4.0) attrs])
          (range 0 16)
     ++ match _error_text v with
        | Some text =>
            if truthy (Some text)
            then [drawAtPoint_withAttributes_ text MARGIN_PT (CONTENT_H_PT - 18.0)
                    {| NSFontAttributeName := 11.0;
                       NSForegroundColorAttributeName := grayColor |}]
            else []
        | None => []
        end).
Proof.
  unfold drawRect_.
  change (range 0 (RULER_LENGTH_MM + 1)) with (range 0 151).
  change (range 0 (RULER_LENGTH_MM / 10 + 1)) with (range 0 16).
  run_draw.
  rewrite for_each_emits. run_draw.
  rewrite for_each_emits. run_draw.
  destruct (_error_text v) as [text|]; [destruct (truthy (Some text))|].
  all: reflexivity.
Qed.

(** ** The resolver *)

(** C1: on a display whose id resolves and whose three queries succeed with a
    physical width above zero, a pixel width above zero (a [size_t]) and a
    backing ratio above zero, [recomputeAndResize] stores exactly
    [(pixel_width / physical_width_mm) / units_per_pixel] and no note: the
    view is not degraded. *)
Theorem measured_scale_exact
    (p : Platform) (v : RulerView) (id : Z) (size_mm : NSSize) (mode n : Z)
    (backing : NSRect) :
  selected_display_id p = Some id ->
  CGDisplayScreenSize p id = Ok size_mm ->
  CGDisplayCopyDisplayMode p id = Ok mode ->
  CGDisplayModeGetPixelWidth p mode = Ok n ->
  convertRectToBacking_ p (NSMakeRect 0 0 200 1) = Ok backing ->
  gt0 (width size_mm) = true ->
  (0 < n < 2 ^ 64)%Z ->
  gt0 (width (size backing) / 200.0) = true ->
  result_of (recomputeAndResize p v) = Ok tt /\
  _points_per_mm (view_of (recomputeAndResize p v))
    = (float_of_Z n / width size_mm) / (width (size backing) / 200.0) /\
  _error_text (view_of (recomputeAndResize p v)) = None /\
  degraded (view_of (recomputeAndResize p v)) = false.
Proof.
  intros Hid Hs Hm Hn Hb Hmm Hpx Hratio.
  destruct (recompute_stages p v) as (x & y & Hx & Hy & Hrun).
  rewrite (resolve_measured p id size_mm mode n Hid Hs Hm Hn Hmm Hpx) in Hx, Hy, Hrun.
  cbn [view_of result_of fst snd] in Hx, Hy, Hrun.
  rewrite (backing_measured p backing Hb (gt0_not_le0 _ Hratio)) in Hy, Hrun.
  cbn [view_of result_of fst snd] in Hy, Hrun.
  injection Hx as <-. injection Hy as <-.
  rewrite Hrun. repeat split.
Qed.

Lemma measured_scale_exact_witness :
  result_of (recomputeAndResize Sample.retina Sample.stale) = Ok tt /\
  _points_per_mm (view_of (recomputeAndResize Sample.retina Sample.stale))
    = (float_of_Z 3000 / 300.0) / (400.0 / 200.0) /\
  _error_text (view_of (recomputeAndResize Sample.retina Sample.stale)) = None /\
  degraded (view_of (recomputeAndResize Sample.retina Sample.stale)) = false.
Proof.
  apply (measured_scale_exact Sample.retina Sample.stale 1
           {| width := 300.0; height := 190.0 |} 7 3000 (NSMakeRect 0 0 400 2));
    try reflexivity.
  lia.
Defined.

(** C2: when the display id does not resolve, or the physical-size or
    pixel-width query raises or gives a value that is not positive, the
    resolver takes 254/25.4 = 10.0 pixels per millimetre, and the view ends
    degraded with a note that begins with the fallback text. *)
Theorem physical_fallback_density (p : Platform) (v : RulerView) :
  physical_unavailable p ->
  FALLBACK_PPI / MM_PER_INCH = 10.0 /\
  result_of (resolve_pixels_per_mm p v) = Ok (FALLBACK_PPI / MM_PER_INCH) /\
  (exists y,
     result_of (backing_pixels_per_point p (view_of (resolve_pixels_per_mm p v)))
       = Ok y /\
     _points_per_mm (view_of (recomputeAndResize p v)) = 10.0 / y) /\
  degraded (view_of (recomputeAndResize p v)) = true /\
  exists rest,
    _error_text (view_of (recomputeAndResize p v))
      = Some (NOTE_FALLBACK_PPI ++ rest)%string.
Proof.
  intros Hun.
  destruct (recompute_stages p v) as (x & y & Hx & Hy & Hrun).
  rewrite (resolve_unavailable p Hun) in Hx, Hy, Hrun |- *.
  cbn [view_of result_of fst snd] in Hx, Hy, Hrun |- *.
  injection Hx as <-.
  split; [reflexivity|]. split; [reflexivity|].
  split; [exists y; split; [exact Hy | rewrite Hrun; reflexivity]|].
  rewrite Hrun. cbn [view_of fst snd _error_text]. unfold degraded.
  cbn [_error_text].
  destruct (ratio_cases p) as [Hr|(backing & Hb & Hle)].
  - rewrite (backing_fallback p Hr). cbn [view_of fst snd _error_text].
    split; [reflexivity|]. exists NOTE_PIXELS_PER_POINT. reflexivity.
  - rewrite (backing_measured p backing Hb Hle). cbn [view_of fst snd _error_text].
    split; [reflexivity|]. exists EmptyString. reflexivity.
Qed.

Lemma physical_fallback_density_witness :
  FALLBACK_PPI / MM_PER_INCH = 10.0 /\
  result_of (resolve_pixels_per_mm Sample.virtual_display Sample.fresh)
    = Ok (FALLBACK_PPI / MM_PER_INCH) /\
  (exists y,
     result_of (backing_pixels_per_point Sample.virtual_display
                  (view_of (resolve_pixels_per_mm Sample.virtual_display Sample.fresh)))
       = Ok y /\
     _points_per_mm (view_of (recomputeAndResize Sample.virtual_display Sample.fresh))
       = 10.0 / y) /\
  degraded (view_of (recomputeAndResize Sample.virtual_display Sample.fresh)) = true /\
  exists rest,
    _error_text (view_of (recomputeAndResize Sample.virtual_display Sample.fresh))
      = Some (NOTE_FALLBACK_PPI ++ rest)%string.
Proof.
  apply (physical_fallback_density Sample.virtual_display Sample.fresh).
  apply (physical_width_not_positive Sample.virtual_display 1
           {| width := 0.0; height := 0.0 |}); reflexivity.
Defined.

(** C3: when the backing-store query raises or gives a ratio that is not
    positive, the resolver divides by 2.0 and appends the second note to
    whatever the first stage left; after a physical fallback the note is the
    two texts, one after the other. *)
Theorem ratio_fallback_appends_note (p : Platform) (v : RulerView) :
  ratio_unavailable p ->
  result_of (backing_pixels_per_point p (view_of (resolve_pixels_per_mm p v)))
    = Ok 2.0 /\
  (exists x,
     result_of (resolve_pixels_per_mm p v) = Ok x /\
     _points_per_mm (view_of (recomputeAndResize p v)) = x / 2.0) /\
  _error_text (view_of (recomputeAndResize p v))
    = Some (or_empty (_error_text (view_of (resolve_pixels_per_mm p v)))
            ++ NOTE_PIXELS_PER_POINT)%string /\
  degraded (view_of (recomputeAndResize p v)) = true /\
  (physical_unavailable p ->
   _error_text (view_of (recomputeAndResize p v))
     = Some (NOTE_FALLBACK_PPI ++ NOTE_PIXELS_PER_POINT)%string).
Proof.
  intros Hr.
  destruct (recompute_stages p v) as (x & y & Hx & Hy & Hrun).
  rewrite (backing_fallback p Hr) in Hy, Hrun |- *.
  cbn [view_of result_of fst snd _error_text] in Hy, Hrun |- *.
  injection Hy as <-.
  split; [reflexivity|].
  split; [exists x; split; [exact Hx | rewrite Hrun; reflexivity]|].
  rewrite Hrun. cbn [view_of fst snd _error_text]. unfold degraded.
  cbn [_error_text].
  split; [reflexivity|]. split.
  - destruct (resolve_total p) as (x' & t & Ht & Hres). rewrite Hres.
    cbn [view_of fst snd _error_text].
    destruct Ht as [->|[-> _]]; reflexivity.
  - intros Hun. rewrite (resolve_unavailable p Hun). reflexivity.
Qed.

Lemma ratio_fallback_appends_note_witness :
  _error_text (view_of (recomputeAndResize Sample.blind Sample.fresh))
    = Some (NOTE_FALLBACK_PPI ++ NOTE_PIXELS_PER_POINT)%string.
Proof.
  assert (Hr : ratio_unavailable Sample.blind)
    by (apply (backing_raises Sample.blind PlatformError); reflexivity).
  assert (Hun : physical_unavailable Sample.blind)
    by (apply (screen_size_raises Sample.blind 1 PlatformError); reflexivity).
  exact (proj2 (proj2 (proj2 (proj2
           (ratio_fallback_appends_note Sample.blind Sample.fresh Hr)))) Hun).
Defined.

(** ** The divisions and their divisors *)

(** When the three queries answer and [float()] does not overflow, the body
    of the first [try] completes: it divides only behind the guard of line
    118, and answers [None] otherwise. *)
Lemma measure_attempt_answered
    (p : Platform) (id : Z) (v : RulerView) (size_mm : NSSize) (mode n : Z)
    (px_w : float) :
  CGDisplayScreenSize p id = Ok size_mm ->
  CGDisplayCopyDisplayMode p id = Ok mode ->
  CGDisplayModeGetPixelWidth p mode = Ok n ->
  py_float n = Ok px_w ->
  measure_attempt p id v
  = (Ok (if gt0 (width size_mm) && gt0 px_w
         then Some (px_w / width size_mm) else None), v, []).
Proof.
  intros Hs Hm Hn Hf. unfold measure_attempt. run.
  step Hs. step Hm. step Hn. step Hf.
  destruct (gt0 (width size_mm)) eqn:Hmm; [|reflexivity].
  destruct (gt0 px_w); [|reflexivity].
  cbn [andb]. rewrite py_div_ok by auto with float_zero. reflexivity.
Qed.

(** What the body of the first [try] raises was raised by a query or by
    [float()]: the division of line 119 raises nothing. *)
Lemma measure_attempt_raises (p : Platform) (id : Z) (v : RulerView) (e : Exn) :
  result_of (measure_attempt p id v) = Raise e ->
  CGDisplayScreenSize p id = Raise e \/
  CGDisplayCopyDisplayMode p id = Raise e \/
  (exists mode,
      CGDisplayCopyDisplayMode p id = Ok mode /\
      CGDisplayModeGetPixelWidth p mode = Raise e) \/
  (exists mode n,
      CGDisplayCopyDisplayMode p id = Ok mode /\
      CGDisplayModeGetPixelWidth p mode = Ok n /\
      py_float n = Raise e).
Proof.
  destruct (CGDisplayScreenSize p id) as [size_mm|e1] eqn:Hs;
    [|unfold measure_attempt; run; step Hs; intros [= ->]; now left].
  destruct (CGDisplayCopyDisplayMode p id) as [mode|e1] eqn:Hm;
    [|unfold measure_attempt; run; step Hs; step Hm; intros [= ->];
      right; now left].
  destruct (CGDisplayModeGetPixelWidth p mode) as [n|e1] eqn:Hn;
    [|unfold measure_attempt; run; step Hs; step Hm; step Hn; intros [= ->];
      right; right; left; now exists mode].
  destruct (py_float n) as [px_w|e1] eqn:Hf.
  - rewrite (measure_attempt_answered p id v size_mm mode n px_w Hs Hm Hn Hf).
    discriminate.
  - unfold measure_attempt; run; step Hs; step Hm; step Hn; step Hf.
    intros [= ->]. right; right; right. now exists mode, n.
Qed.

(** What the body of the second [try] raises was raised by the backing-store
    query, or is the [ValueError] of line 132: the division by 200.0 raises
    nothing. *)
Lemma backing_attempt_raises (p : Platform) (v : RulerView) (e : Exn) :
  result_of (backing_attempt p v) = Raise e ->
  convertRectToBacking_ p (NSMakeRect 0 0 200 1) = Raise e \/
  (e = ValueError /\
   exists backing,
     convertRectToBacking_ p (NSMakeRect 0 0 200 1) = Ok backing /\
     le0 (width (size backing) / 200.0) = true).
Proof.
  unfold backing_attempt. run.
  destruct (convertRectToBacking_ p (NSMakeRect 0 0 200 1)) as [backing|e1];
    run; [|intros [= ->]; now left].
  rewrite (py_div_ok _ 200.0 eq_refl).
  destruct (le0 (width (size backing) / 200.0)) eqn:Hle; [|discriminate].
  intros [= <-]. right. split; [reflexivity|]. now exists backing.
Qed.

(** The divisor of line 137 is never zero. *)
Lemma final_divisor_nonzero (p : Platform) (v : RulerView) :
  exists x y,
    result_of (resolve_pixels_per_mm p v) = Ok x /\
    result_of (backing_pixels_per_point p (view_of (resolve_pixels_per_mm p v)))
      = Ok y /\
    is0 y = false /\
    _points_per_mm (view_of (recomputeAndResize p v)) = x / y.
Proof.
  destruct (recompute_stages p v) as (x & y & Hx & Hy & Hrun).
  destruct (backing_total p (view_of (resolve_pixels_per_mm p v)))
    as (y' & t & Hy' & Hb).
  rewrite Hb in Hy. cbn [result_of fst] in Hy. injection Hy as ->.
  exists x, y. rewrite Hb, Hrun. repeat split; assumption.
Qed.

(** C4: a physical width that is exactly zero, or a pixel width that is
    exactly zero, leads to no division by zero.  The body of the [try]
    itself, before any handler, completes with no measurement whenever the
    queries answer, and whatever it raises a query raised; the divisor of
    line 137 is not zero; so nothing raises.  The measurement is skipped and
    the whole run is the one of the same platform with the physical-size
    query failing (the fixed-density path). *)
Theorem zero_width_is_query_failure (p : Platform) (v : RulerView) (id : Z) :
  selected_display_id p = Some id ->
  (exists size_mm,
      CGDisplayScreenSize p id = Ok size_mm /\ is0 (width size_mm) = true) \/
  (exists mode,
      CGDisplayCopyDisplayMode p id = Ok mode /\
      CGDisplayModeGetPixelWidth p mode = Ok 0%Z) ->
  result_of (recomputeAndResize p v) = Ok tt /\
  measure_pixels_per_mm p id v = (Ok None, v, []) /\
  result_of (resolve_pixels_per_mm p v) = Ok 10.0 /\
  recomputeAndResize p v = recomputeAndResize (with_failing_screen_size p) v /\
  (forall size_mm mode n px_w,
     CGDisplayScreenSize p id = Ok size_mm ->
     CGDisplayCopyDisplayMode p id = Ok mode ->
     CGDisplayModeGetPixelWidth p mode = Ok n ->
     py_float n = Ok px_w ->
     measure_attempt p id v = (Ok None, v, [])) /\
  (forall e,
     result_of (measure_attempt p id v) = Raise e ->
     CGDisplayScreenSize p id = Raise e \/
     CGDisplayCopyDisplayMode p id = Raise e \/
     (exists mode,
         CGDisplayCopyDisplayMode p id = Ok mode /\
         CGDisplayModeGetPixelWidth p mode = Raise e) \/
     (exists mode n,
         CGDisplayCopyDisplayMode p id = Ok mode /\
         CGDisplayModeGetPixelWidth p mode = Ok n /\
         py_float n = Raise e)) /\
  (exists y,
     result_of (backing_pixels_per_point p (view_of (resolve_pixels_per_mm p v)))
       = Ok y /\
     is0 y = false /\
     _points_per_mm (view_of (recomputeAndResize p v)) = 10.0 / y).
Proof.
  intros Hid Hzero.
  assert (Hun : physical_unavailable p).
  { destruct Hzero as [(size_mm & Hs & Hz)|(mode & Hm & Hn)].
    - apply (physical_width_not_positive p id size_mm Hid Hs (is0_le0 _ Hz)).
    - apply (pixel_width_not_positive p id mode 0 Hid Hm Hn). lia. }
  assert (Hun' : physical_unavailable (with_failing_screen_size p))
    by (apply (screen_size_raises _ id PlatformError); [exact Hid | reflexivity]).
  destruct (recompute_stages p v) as (x & y & _ & _ & Hrun).
  split; [rewrite Hrun; reflexivity|].
  split; [apply (measure_unavailable p id Hid Hun)|].
  split; [rewrite (resolve_unavailable p Hun); reflexivity|].
  split.
  { unfold recomputeAndResize, bind.
    rewrite (resolve_unavailable p Hun), (resolve_unavailable _ Hun').
    reflexivity. }
  split.
  { intros size_mm mode n px_w Hs Hm Hn Hf.
    rewrite (measure_attempt_answered p id v size_mm mode n px_w Hs Hm Hn Hf).
    destruct Hzero as [(size_mm' & Hs' & Hz)|(mode' & Hm' & Hn')].
    - rewrite Hs in Hs'. injection Hs' as <-.
      rewrite le0_not_gt0 by auto with float_zero. reflexivity.
    - rewrite Hm in Hm'. injection Hm' as <-.
      rewrite Hn in Hn'. injection Hn' as ->.
      injection Hf as <-. rewrite andb_false_r. reflexivity. }
  split; [exact (measure_attempt_raises p id v)|].
  destruct (final_divisor_nonzero p v) as (x' & y' & Hx' & Hy' & Hnz & Hq).
  rewrite (resolve_unavailable p Hun) in Hx'. cbn [result_of fst] in Hx'.
  injection Hx' as <-. exists y'. repeat split; assumption.
Qed.

Lemma zero_width_is_query_failure_witness :
  result_of (recomputeAndResize Sample.virtual_display Sample.stale) = Ok tt /\
  measure_pixels_per_mm Sample.virtual_display 1 Sample.stale
    = (Ok None, Sample.stale, []) /\
  result_of (resolve_pixels_per_mm Sample.virtual_display Sample.stale) = Ok 10.0 /\
  recomputeAndResize Sample.virtual_display Sample.stale
    = recomputeAndResize (with_failing_screen_size Sample.virtual_display) Sample.stale /\
  measure_attempt Sample.virtual_display 1 Sample.stale
    = (Ok None, Sample.stale, []).
Proof.
  destruct (zero_width_is_query_failure Sample.virtual_display Sample.stale 1
              eq_refl
              (or_introl
                 (ex_intro _ {| width := 0.0; height := 0.0 |}
                    (conj eq_refl eq_refl))))
    as (H1 & H2 & H3 & H4 & H5 & _).
  exact (conj H1 (conj H2 (conj H3 (conj H4
           (H5 {| width := 0.0; height := 0.0 |} 7%Z 1920%Z (float_of_Z 1920)
              eq_refl eq_refl eq_refl eq_refl))))).
Defined.

(** C5: [recomputeAndResize] is idempotent: run again on the view the first
    run left, with the platform unchanged, it gives the same view (scale and
    note), asks for the same content width, and raises as little. *)
Theorem recompute_idempotent (p : Platform) (v : RulerView) :
  recomputeAndResize p (view_of (recomputeAndResize p v)) = recomputeAndResize p v /\
  view_of (recomputeAndResize p (view_of (recomputeAndResize p v)))
    = view_of (recomputeAndResize p v) /\
  requested_content_width
    (effects_of (recomputeAndResize p (view_of (recomputeAndResize p v))))
    = requested_content_width (effects_of (recomputeAndResize p v)).
Proof.
  destruct (recompute_closed p) as (final & out & Hrun).
  rewrite !Hrun. repeat split.
Qed.

(** ** The display the resolver asks about *)

(** After a physical fallback: the density is 10.0, the scale is 10.0 over
    the ratio of the second stage, and the note starts with the fallback
    text. *)
Lemma fallback_run (p : Platform) (v : RulerView) :
  physical_unavailable p ->
  result_of (resolve_pixels_per_mm p v) = Ok 10.0 /\
  (exists y,
     result_of (backing_pixels_per_point p (view_of (resolve_pixels_per_mm p v)))
       = Ok y /\
     _points_per_mm (view_of (recomputeAndResize p v)) = 10.0 / y) /\
  degraded (view_of (recomputeAndResize p v)) = true /\
  exists rest,
    _error_text (view_of (recomputeAndResize p v))
      = Some (NOTE_FALLBACK_PPI ++ rest)%string.
Proof.
  intros Hun.
  destruct (recompute_stages p v) as (x & y & Hx & Hy & Hrun).
  rewrite (resolve_unavailable p Hun) in Hx, Hy, Hrun |- *.
  cbn [view_of result_of fst snd] in Hx, Hy, Hrun |- *.
  injection Hx as <-.
  split; [reflexivity|].
  split; [exists y; split; [exact Hy | rewrite Hrun; reflexivity]|].
  rewrite Hrun. cbn [view_of fst snd _error_text]. unfold degraded.
  cbn [_error_text].
  destruct (ratio_cases p) as [Hr|(backing & Hb & Hle)].
  - rewrite (backing_fallback p Hr). cbn [view_of fst snd _error_text].
    split; [reflexivity|]. exists NOTE_PIXELS_PER_POINT. reflexivity.
  - rewrite (backing_measured p backing Hb Hle). cbn [view_of fst snd _error_text].
    split; [reflexivity|]. exists EmptyString. reflexivity.
Qed.

(** A window on no screen, on a platform whose main screen is [s], runs as
    the same window on [s] does: same result, same view, same width asked. *)
Lemma unattached_runs_as_on_main_screen
    (p : Platform) (s : NSScreen) (v : RulerView) :
  window_screen p = None ->
  mainScreen p = Some s ->
  result_of (recomputeAndResize p v)
    = result_of (recomputeAndResize (with_window_on p s) v) /\
  view_of (recomputeAndResize p v)
    = view_of (recomputeAndResize (with_window_on p s) v) /\
  requested_content_width (effects_of (recomputeAndResize p v))
    = match window p with
      | Some _ =>
          requested_content_width
            (effects_of (recomputeAndResize (with_window_on p s) v))
      | None => None
      end.
Proof.
  intros Hws Hmain.
  assert (Hid : selected_display_id p = _display_id_for_screen s).
  { unfold selected_display_id, selected_screen, window_screen in *.
    destruct (window p) as [win|]; [rewrite Hws|]; rewrite Hmain; reflexivity. }
  assert (Hres : resolve_pixels_per_mm (with_window_on p s) v
                 = resolve_pixels_per_mm p v).
  { unfold resolve_pixels_per_mm. rewrite Hid. reflexivity. }
  destruct (recompute_stages p v) as (x & y & Hx & Hy & Hrun).
  destruct (recompute_stages (with_window_on p s) v) as (x' & y' & Hx' & Hy' & Hrun').
  rewrite Hres in Hx', Hy', Hrun'.
  change (backing_pixels_per_point (with_window_on p s))
    with (backing_pixels_per_point p) in Hy', Hrun'.
  rewrite Hx in Hx'. injection Hx' as <-.
  rewrite Hy in Hy'. injection Hy' as <-.
  rewrite Hrun, Hrun'. cbn [result_of view_of effects_of fst snd with_window_on window].
  repeat split. destruct (window p); reflexivity.
Qed.

(** C9, as the code has it: a window that is on no screen is resolved against
    [NSScreen.mainScreen()].  When that answers a screen, the run is the one
    of the same window on that screen, and with its display answering
    positive widths the scale stored is the one measured on it, with no
    note.  When it answers no screen either, the resolver goes on without a
    display: the density is the fixed 10.0, the view is degraded and its
    note starts with the fallback text.  In no case does
    [recomputeAndResize] raise. *)
Theorem unattached_window_uses_main_screen (p : Platform) (v : RulerView) :
  window_screen p = None ->
  selected_screen p = mainScreen p /\
  selected_display_id p
    = match mainScreen p with
      | Some s => _display_id_for_screen s
      | None => None
      end /\
  (mainScreen p = None -> physical_unavailable p) /\
  result_of (recomputeAndResize p v) = Ok tt /\
  (forall s,
     mainScreen p = Some s ->
     result_of (recomputeAndResize p v)
       = result_of (recomputeAndResize (with_window_on p s) v) /\
     view_of (recomputeAndResize p v)
       = view_of (recomputeAndResize (with_window_on p s) v) /\
     requested_content_width (effects_of (recomputeAndResize p v))
       = match window p with
         | Some _ =>
             requested_content_width
               (effects_of (recomputeAndResize (with_window_on p s) v))
         | None => None
         end) /\
  (forall s id size_mm mode n backing,
     mainScreen p = Some s ->
     _display_id_for_screen s = Some id ->
     CGDisplayScreenSize p id = Ok size_mm ->
     CGDisplayCopyDisplayMode p id = Ok mode ->
     CGDisplayModeGetPixelWidth p mode = Ok n ->
     convertRectToBacking_ p (NSMakeRect 0 0 200 1) = Ok backing ->
     gt0 (width size_mm) = true ->
     (0 < n < 2 ^ 64)%Z ->
     gt0 (width (size backing) / 200.0) = true ->
     _points_per_mm (view_of (recomputeAndResize p v))
       = (float_of_Z n / width size_mm) / (width (size backing) / 200.0) /\
     _error_text (view_of (recomputeAndResize p v)) = None) /\
  (mainScreen p = None ->
     result_of (resolve_pixels_per_mm p v) = Ok 10.0 /\
     (exists y,
        result_of (backing_pixels_per_point p
                     (view_of (resolve_pixels_per_mm p v))) = Ok y /\
        _points_per_mm (view_of (recomputeAndResize p v)) = 10.0 / y) /\
     degraded (view_of (recomputeAndResize p v)) = true /\
     exists rest,
       _error_text (view_of (recomputeAndResize p v))
         = Some (NOTE_FALLBACK_PPI ++ rest)%string).
Proof.
  intros Hws.
  assert (Hsel : selected_screen p = mainScreen p).
  { unfold selected_screen, window_screen in *.
    destruct (window p) as [win|]; [rewrite Hws|]; reflexivity. }
  assert (Hid : selected_display_id p
                = match mainScreen p with
                  | Some s => _display_id_for_screen s
                  | None => None
                  end)
    by (unfold selected_display_id; rewrite Hsel; reflexivity).
  assert (Hnone : mainScreen p = None -> physical_unavailable p).
  { intros Hm. apply no_display_id. rewrite Hid, Hm. reflexivity. }
  split; [exact Hsel|]. split; [exact Hid|]. split; [exact Hnone|].
  split.
  { destruct (recompute_closed p) as (final & out & Hrun).
    rewrite Hrun. reflexivity. }
  split.
  { intros s Hmain. exact (unattached_runs_as_on_main_screen p s v Hws Hmain). }
  split.
  { intros s id size_mm mode n backing Hmain Hsid Hs Hm Hn Hb Hmm Hpx Hratio.
    assert (Hid' : selected_display_id p = Some id)
      by (rewrite Hid, Hmain; exact Hsid).
    destruct (recompute_stages p v) as (x & y & Hx & Hy & Hrun).
    rewrite (resolve_measured p id size_mm mode n Hid' Hs Hm Hn Hmm Hpx)
      in Hx, Hy, Hrun.
    cbn [view_of result_of fst snd] in Hx, Hy, Hrun.
    rewrite (backing_measured p backing Hb (gt0_not_le0 _ Hratio)) in Hy, Hrun.
    cbn [view_of result_of fst snd] in Hy, Hrun.
    injection Hx as <-. injection Hy as <-.
    rewrite Hrun. split; reflexivity. }
  intros Hm. exact (fallback_run p v (Hnone Hm)).
Qed.

Lemma unattached_window_uses_main_screen_witness :
  selected_screen Sample.detached = Some Sample.builtin_screen /\
  selected_display_id Sample.detached = Some 1%Z /\
  result_of (recomputeAndResize Sample.detached Sample.fresh) = Ok tt /\
  view_of (recomputeAndResize Sample.detached Sample.fresh)
    = view_of (recomputeAndResize
                 (with_window_on Sample.detached Sample.builtin_screen)
                 Sample.fresh) /\
  _points_per_mm (view_of (recomputeAndResize Sample.detached Sample.fresh))
    = (float_of_Z 3000 / 300.0) / (400.0 / 200.0) /\
  _error_text (view_of (recomputeAndResize Sample.detached Sample.fresh)) = None.
Proof.
  destruct (unattached_window_uses_main_screen Sample.detached Sample.fresh eq_refl)
    as (Hs & Hid & _ & Hr & Hsame & Hmeasured & _).
  destruct (Hsame Sample.builtin_screen eq_refl) as (_ & Hview & _).
  destruct (Hmeasured Sample.builtin_screen 1%Z
              {| width := 300.0; height := 190.0 |} 7%Z 3000%Z
              (NSMakeRect 0 0 400 2)
              eq_refl eq_refl eq_refl eq_refl eq_refl eq_refl eq_refl
              (conj eq_refl eq_refl) eq_refl) as (Hscale & Hnote).
  exact (conj Hs (conj Hid (conj Hr (conj Hview (conj Hscale Hnote))))).
Defined.

(** C9, as the claim has it, fails without a main screen: the resolver then
    proceeds with no display at all, and still completes on the fallback. *)
Lemma headless_resolves_without_display :
  window_screen Sample.headless = None /\
  mainScreen Sample.headless = None /\
  selected_screen Sample.headless = None /\
  selected_display_id Sample.headless = None /\
  recomputeAndResize Sample.headless Sample.fresh
  = (Ok tt,
     {| _points_per_mm := 5.0; _error_text := Some NOTE_FALLBACK_PPI |},
     [setContentSize_ 790.0 CONTENT_H_PT; setNeedsDisplay_ true]).
Proof. repeat split. Qed.

(** ** The geometry of the ruler *)

Lemma float_of_Z_150 : float_of_Z 150 = 150.0.
Proof. reflexivity. Qed.

Lemma content_width_formula (u : float) : content_width u = 2 * 20.0 + 150 * u.
Proof.
  unfold content_width, int_mul.
  change (float_of_Z RULER_LENGTH_MM) with (float_of_Z 150).
  rewrite float_of_Z_150. reflexivity.
Qed.

Lemma requested_after_recompute (p : Platform) (v : RulerView) :
  requested_content_width (effects_of (recomputeAndResize p v))
  = match window p with
    | Some _ =>
        Some (content_width (_points_per_mm (view_of (recomputeAndResize p v))))
    | None => None
    end.
Proof.
  destruct (recompute_stages p v) as (x & y & _ & _ & Hrun).
  rewrite Hrun. destruct (window p); reflexivity.
Qed.

Lemma range_nth (a b : Z) (k : nat) :
  (k < Z.to_nat (b - a))%nat -> nth_error (range a b) k = Some (a + Z.of_nat k)%Z.
Proof.
  intros Hk. unfold range.
  rewrite nth_error_map, nth_error_nth' with (d := O) by (rewrite length_seq; exact Hk).
  rewrite seq_nth by exact Hk. reflexivity.
Qed.

Lemma tick_height_rule (mm : Z) :
  ((10 | mm)%Z -> tick_height mm = TICK_LARGE_PT) /\
  ((5 | mm)%Z -> ~ (10 | mm)%Z -> tick_height mm = TICK_MED_PT) /\
  (~ (5 | mm)%Z -> tick_height mm = TICK_SMALL_PT).
Proof.
  unfold tick_height.
  pose proof (Z.mod_divide mm 10 ltac:(discriminate)) as H10.
  pose proof (Z.mod_divide mm 5 ltac:(discriminate)) as H5.
  assert (H510 : (10 | mm)%Z -> (5 | mm)%Z)
    by (apply Z.divide_trans; exists 2%Z; reflexivity).
  destruct (Z.eqb_spec (mm mod 10) 0) as [E10|N10];
    destruct (Z.eqb_spec (mm mod 5) 0) as [E5|N5]; repeat split; intros;
    try reflexivity; exfalso; tauto.
Qed.

(** C6: the content width [recomputeAndResize] asks of the window is
    [2*20.0 + 150*units_per_mm] for the scale it stored (790.0 at 5.0), and
    [drawRect_] draws, after the baseline, one tick per integer millimetre
    0..150 at [x = 20 + mm*units_per_mm] whose height is the tall one at the
    multiples of 10, the medium one at the other multiples of 5, the short
    one elsewhere. *)
Theorem ruler_geometry (p : Platform) (v : RulerView) (dirtyRect : NSRect) :
  requested_content_width (effects_of (recomputeAndResize p v))
  = match window p with
    | Some _ =>
        Some (2 * 20.0 + 150 * _points_per_mm (view_of (recomputeAndResize p v)))
    | None => None
    end /\
  (forall u, content_width u = 2 * 20.0 + 150 * u) /\
  content_width 5.0 = 790.0 /\
  (exists rest,
     effects_of (drawRect_ p dirtyRect v)
     = [set whiteColor; NSRectFill dirtyRect; set blackColor; setLineWidth_ 1.0;
        moveToPoint_ 20.0 28.0;
        lineToPoint_ (20.0 + 150 * _points_per_mm v) 28.0]
       ++ flat_map
            (fun mm =>
               [moveToPoint_ (20.0 + int_mul mm (_points_per_mm v)) 28.0;
                lineToPoint_ (20.0 + int_mul mm (_points_per_mm v))
                  (28.0 + tick_height mm)])
            (range 0 151)
       ++ stroke :: rest) /\
  (forall k, (k <= 150)%nat -> nth_error (range 0 151) k = Some (Z.of_nat k)) /\
  List.length (range 0 151) = 151%nat /\
  (forall mm,
     ((10 | mm)%Z -> tick_height mm = TICK_LARGE_PT) /\
     ((5 | mm)%Z -> ~ (10 | mm)%Z -> tick_height mm = TICK_MED_PT) /\
     (~ (5 | mm)%Z -> tick_height mm = TICK_SMALL_PT)) /\
  tick_height 30 = 28.0 /\ tick_height 25 = 18.0 /\ tick_height 27 = 10.0.
Proof.
  split.
  { rewrite requested_after_recompute.
    destruct (window p); [rewrite content_width_formula|]; reflexivity. }
  split; [exact content_width_formula|].
  split; [reflexivity|].
  split.
  { rewrite drawRect_run. cbn [effects_of snd].
    unfold int_mul at 1. change (float_of_Z RULER_LENGTH_MM) with (float_of_Z 150).
    rewrite float_of_Z_150. eexists. reflexivity. }
  split.
  { intros k Hk. rewrite range_nth by (change (Z.to_nat (151 - 0)) with 151%nat; lia).
    reflexivity. }
  split; [reflexivity|].
  split; [exact tick_height_rule|].
  repeat split.
Qed.

Lemma filter_flat_map_none {A B} (f : B -> bool) (g : A -> list B) (xs : list A) :
  (forall x, filter f (g x) = []) -> filter f (flat_map g xs) = [].
Proof.
  intros Hg. induction xs as [|x xs IH]; [reflexivity|].
  cbn [flat_map]. rewrite filter_app, Hg, IH. reflexivity.
Qed.

Lemma filter_flat_map_all {A B} (f : B -> bool) (g : A -> list B) (xs : list A) :
  (forall x, filter f (g x) = g x) -> filter f (flat_map g xs) = flat_map g xs.
Proof.
  intros Hg. induction xs as [|x xs IH]; [reflexivity|].
  cbn [flat_map]. rewrite filter_app, Hg, IH. reflexivity.
Qed.

Lemma flat_map_single {A B} (g : A -> B) (xs : list A) :
  flat_map (fun x => [g x]) xs = map g xs.
Proof. induction xs as [|x xs IH]; [reflexivity|]. cbn. now rewrite IH. Qed.

(** The texts [drawRect_] draws: one per centimetre, then the warning. *)
Lemma drawRect_texts (p : Platform) (dirtyRect : NSRect) (v : RulerView) :
  filter draws_text (effects_of (drawRect_ p dirtyRect v))
  = map (fun cm =>
           let attrs := {| NSFontAttributeName := 12.0;
                           NSForegroundColorAttributeName := blackColor |} in
           let sz := sizeWithAttributes_ p (str cm) attrs in
           drawAtPoint_withAttributes_ (str cm)
             (MARGIN_PT + int_mul (cm * 10) (_points_per_mm v) - width sz / 2.0)
             (BASELINE_Y_PT - height sz - 4.0) attrs)
        (range 0 16)
    ++ match _error_text v with
       | Some text =>
           if truthy (Some text)
           then [drawAtPoint_withAttributes_ text MARGIN_PT (CONTENT_H_PT - 18.0)
                   {| NSFontAttributeName := 11.0;
                      NSForegroundColorAttributeName := grayColor |}]
           else []
       | None => []
       end.
Proof.
  rewrite drawRect_run. cbn [effects_of snd].
  rewrite !filter_app.
  rewrite filter_flat_map_none by reflexivity.
  rewrite filter_flat_map_all by reflexivity.
  cbn zeta. rewrite flat_map_single.
  destruct (_error_text v) as [text|]; [destruct (truthy (Some text))|];
    reflexivity.
Qed.

(** C7: the text of centimetre [n], for [n] in 0..15, is drawn with its left
    edge half its measured width before [x = margin + n*10*units_per_mm],
    that is, centred on [x]; the sixteen labels are the first texts drawn,
    and the only text after them is the warning of a degraded view. *)
Theorem label_placement
    (p : Platform) (v : RulerView) (dirtyRect : NSRect) (n : Z) :
  (0 <= n <= 15)%Z ->
  let attrs := {| NSFontAttributeName := 12.0;
                  NSForegroundColorAttributeName := blackColor |} in
  let texts := filter draws_text (effects_of (drawRect_ p dirtyRect v)) in
  let x := MARGIN_PT + int_mul (n * 10) (_points_per_mm v) in
  nth_error texts (Z.to_nat n)
    = Some (drawAtPoint_withAttributes_ (str n)
              (x - width (sizeWithAttributes_ p (str n) attrs) / 2.0)
              (BASELINE_Y_PT - height (sizeWithAttributes_ p (str n) attrs) - 4.0)
              attrs) /\
  List.length texts = (16 + if degraded v then 1 else 0)%nat /\
  (forall text, nth_error texts 16 = Some text ->
     exists note,
       _error_text v = Some note /\
       text = drawAtPoint_withAttributes_ note MARGIN_PT (CONTENT_H_PT - 18.0)
                {| NSFontAttributeName := 11.0;
                   NSForegroundColorAttributeName := grayColor |}).
Proof.
  intros Hn attrs texts x. subst texts. rewrite drawRect_texts.
  split; [|split].
  - rewrite nth_error_app1
      by (rewrite length_map; change (List.length (range 0 16)) with 16%nat; lia).
    rewrite nth_error_map, range_nth
      by (change (Z.to_nat (16 - 0)) with 16%nat; lia).
    cbn [option_map]. rewrite Z2Nat.id, Z.add_0_l by lia. reflexivity.
  - rewrite length_app, length_map. change (List.length (range 0 16)) with 16%nat.
    unfold degraded.
    destruct (_error_text v) as [note|]; [destruct (truthy (Some note))|];
      reflexivity.
  - intros text.
    rewrite nth_error_app2
      by (rewrite length_map; change (List.length (range 0 16)) with 16%nat; lia).
    rewrite length_map. change (List.length (range 0 16)) with 16%nat.
    cbn [Nat.sub].
    destruct (_error_text v) as [note|]; [destruct (truthy (Some note))|];
      cbn [nth_error]; try discriminate.
    intros [= <-]. exists note. split; reflexivity.
Qed.

Lemma label_placement_witness :
  nth_error
    (filter draws_text (effects_of (drawRect_ Sample.retina Sample.frame Sample.fresh)))
    3
  = Some (drawAtPoint_withAttributes_ "3" (20.0 + 30 * 5.0 - 8.0 / 2.0)
            (28.0 - 14.0 - 4.0)
            {| NSFontAttributeName := 12.0;
               NSForegroundColorAttributeName := blackColor |}).
Proof.
  exact (proj1 (label_placement Sample.retina Sample.fresh Sample.frame 3
                  ltac:(lia))).
Defined.

(** ** Drawing reads, it does not write *)

(** C8: [drawRect_] returns the view it was given: the scale, the note and
    with them the degraded flag are what they were; and it does not raise. *)
Theorem draw_is_pure_read (p : Platform) (dirtyRect : NSRect) (v : RulerView) :
  view_of (drawRect_ p dirtyRect v) = v /\
  _points_per_mm (view_of (drawRect_ p dirtyRect v)) = _points_per_mm v /\
  _error_text (view_of (drawRect_ p dirtyRect v)) = _error_text v /\
  degraded (view_of (drawRect_ p dirtyRect v)) = degraded v /\
  result_of (drawRect_ p dirtyRect v) = Ok tt.
Proof. rewrite drawRect_run. repeat split. Qed.

(** C10: the view [initWithFrame_] returns holds 5.0 points per millimetre
    and no note, so it is not degraded; [drawRect_] on it, before any
    [recomputeAndResize], draws the whole ruler at that scale (baseline to
    x = 770, the 151 ticks, the stroke, the 16 labels) and no warning. *)
Theorem fresh_view_is_calibrated
    (super_init : NSRect -> bool) (frame : NSRect) (v : RulerView)
    (p : Platform) (dirtyRect : NSRect) :
  initWithFrame_ super_init frame = Some v ->
  _points_per_mm v = 5.0 /\
  _error_text v = None /\
  degraded v = false /\
  drawRect_ p dirtyRect v
  = (Ok tt, v,
     [set whiteColor; NSRectFill dirtyRect; set blackColor; setLineWidth_ 1.0;
      moveToPoint_ 20.0 28.0; lineToPoint_ 770.0 28.0]
     ++ flat_map
          (fun mm =>
             [moveToPoint_ (20.0 + int_mul mm 5.0) 28.0;
              lineToPoint_ (20.0 + int_mul mm 5.0) (28.0 + tick_height mm)])
          (range 0 151)
     ++ [stroke]
     ++ map
          (fun cm =>
             let attrs := {| NSFontAttributeName := 12.0;
                             NSForegroundColorAttributeName := blackColor |} in
             let sz := sizeWithAttributes_ p (str cm) attrs in
             drawAtPoint_withAttributes_ (str cm)
               (20.0 + int_mul (cm * 10) 5.0 - width sz / 2.0)
               (28.0 - height sz - 4.0) attrs)
          (range 0 16)).
Proof.
  unfold initWithFrame_. destruct (super_init frame); [|discriminate].
  intros [= <-]. do 3 (split; [reflexivity|]).
  rewrite drawRect_run. cbn [_points_per_mm _error_text].
  cbn zeta. rewrite flat_map_single, app_nil_r. reflexivity.
Qed.

Lemma fresh_view_is_calibrated_witness :
  _points_per_mm Sample.fresh = 5.0 /\
  _error_text Sample.fresh = None /\
  degraded Sample.fresh = false /\
  result_of (drawRect_ Sample.retina Sample.frame Sample.fresh) = Ok tt.
Proof.
  destruct (fresh_view_is_calibrated (fun _ => true) Sample.frame Sample.fresh
              Sample.retina Sample.frame eq_refl) as (H1 & H2 & H3 & H4).
  rewrite H4. repeat split.
Defined.

(** ** Availability *)

(** No error is fatal, and no division has a zero divisor: on every
    platform and from every view [recomputeAndResize] completes without
    raising, and so does [drawRect_] on the view it leaves.  Inside the two
    [try] blocks, before any handler, the first body raises only what a
    query or [float()] raised and the second only what the backing-store
    query raised or the [ValueError] of line 132, so neither division there
    raises; and the divisor of line 137, outside any [try], is not zero. *)
Theorem ruler_always_renders (p : Platform) (v : RulerView) (dirtyRect : NSRect) :
  result_of (recomputeAndResize p v) = Ok tt /\
  result_of (drawRect_ p dirtyRect (view_of (recomputeAndResize p v))) = Ok tt /\
  (forall id v' e,
     result_of (measure_attempt p id v') = Raise e ->
     CGDisplayScreenSize p id = Raise e \/
     CGDisplayCopyDisplayMode p id = Raise e \/
     (exists mode,
         CGDisplayCopyDisplayMode p id = Ok mode /\
         CGDisplayModeGetPixelWidth p mode = Raise e) \/
     (exists mode n,
         CGDisplayCopyDisplayMode p id = Ok mode /\
         CGDisplayModeGetPixelWidth p mode = Ok n /\
         py_float n = Raise e)) /\
  (forall v' e,
     result_of (backing_attempt p v') = Raise e ->
     convertRectToBacking_ p (NSMakeRect 0 0 200 1) = Raise e \/
     (e = ValueError /\
      exists backing,
        convertRectToBacking_ p (NSMakeRect 0 0 200 1) = Ok backing /\
        le0 (width (size backing) / 200.0) = true)) /\
  (exists x y,
     result_of (resolve_pixels_per_mm p v) = Ok x /\
     result_of (backing_pixels_per_point p (view_of (resolve_pixels_per_mm p v)))
       = Ok y /\
     is0 y = false /\
     _points_per_mm (view_of (recomputeAndResize p v)) = x / y).
Proof.
  split.
  { destruct (recompute_closed p) as (final & out & Hrun).
    rewrite Hrun. reflexivity. }
  split; [rewrite drawRect_run; reflexivity|].
  split; [exact (measure_attempt_raises p)|].
  split; [exact (backing_attempt_raises p)|].
  exact (final_divisor_nonzero p v).
Qed.

(** The example of the specification: 300 mm, 3000 pixels, two pixels per
    point give 5.0 points per millimetre, no note, and a 790-point window. *)
Theorem retina_end_to_end :
  recomputeAndResize Sample.retina Sample.stale
  = (Ok tt,
     {| _points_per_mm := 5.0; _error_text := None |},
     [setContentSize_ 790.0 90.0; setNeedsDisplay_ true]).
Proof. vm_compute. reflexivity. Qed.

(** ** What a run of [recomputeAndResize] keeps and forgets *)

(** The view a run starts from does not matter: the scale and the note of an
    earlier run never reach the next one, nor do they change what is asked
    of the window. *)
Theorem recompute_forgets_previous_view (p : Platform) (v1 v2 : RulerView) :
  recomputeAndResize p v1 = recomputeAndResize p v2.
Proof.
  destruct (recompute_closed p) as (final & out & Hrun).
  rewrite !Hrun. reflexivity.
Qed.

(** A run issues no drawing call.  With a window it asks once for the content
    size, of height [CONTENT_H_PT] and of the width of the scale it has just
    stored; without one it asks for no size.  In both cases it ends with the
    one request to redisplay. *)
Theorem recompute_commands (p : Platform) (v : RulerView) :
  effects_of (recomputeAndResize p v)
  = match window p with
    | Some _ =>
        [setContentSize_
           (content_width (_points_per_mm (view_of (recomputeAndResize p v))))
           CONTENT_H_PT;
         setNeedsDisplay_ true]
    | None => [setNeedsDisplay_ true]
    end.
Proof.
  destruct (recompute_stages p v) as (x & y & _ & _ & Hrun).
  rewrite Hrun. destruct (window p); reflexivity.
Qed.

(** The two stages in full: either the density is the fallback one, with its
    note, or every query of lines 113-116 answered and both widths are above
    zero, the density is their quotient and there is no note. *)
Lemma resolve_cases (p : Platform) :
  (forall v, resolve_pixels_per_mm p v
             = (Ok 10.0,
                {| _points_per_mm := _points_per_mm v;
                   _error_text := Some NOTE_FALLBACK_PPI |}, [])) \/
  (exists id size_mm mode n px_w,
     selected_display_id p = Some id /\
     CGDisplayScreenSize p id = Ok size_mm /\
     CGDisplayCopyDisplayMode p id = Ok mode /\
     CGDisplayModeGetPixelWidth p mode = Ok n /\
     py_float n = Ok px_w /\
     gt0 (width size_mm) = true /\ gt0 px_w = true /\
     forall v, resolve_pixels_per_mm p v
               = (Ok (px_w / width size_mm),
                  {| _points_per_mm := _points_per_mm v; _error_text := None |},
                  [])).
Proof.
  unfold resolve_pixels_per_mm.
  destruct (selected_display_id p) as [id|] eqn:Hid; [|left; reflexivity].
  unfold measure_pixels_per_mm, measure_attempt. run.
  destruct (CGDisplayScreenSize p id) as [size_mm|e] eqn:Hs; run;
    [|left; reflexivity].
  destruct (CGDisplayCopyDisplayMode p id) as [mode|e] eqn:Hm; run;
    [|left; reflexivity].
  destruct (CGDisplayModeGetPixelWidth p mode) as [n|e] eqn:Hn; run;
    [|left; reflexivity].
  destruct (py_float n) as [px_w|e] eqn:Hf; run; [|left; reflexivity].
  destruct (gt0 (width size_mm)) eqn:Hmm; run; [|left; reflexivity].
  destruct (gt0 px_w) eqn:Hpx; run; [|left; reflexivity].
  right. exists id, size_mm, mode, n, px_w.
  do 7 (split; [first [assumption | reflexivity]|]).
  intros v. rewrite py_div_ok by auto with float_zero. reflexivity.
Qed.

(** The note after a run is absent, the first text, the second text, or the
    first followed by the second; it is never the empty string, so the view
    is degraded exactly when a note is present. *)
Theorem note_after_recompute (p : Platform) (v : RulerView) :
  let note := _error_text (view_of (recomputeAndResize p v)) in
  (note = None \/
   note = Some NOTE_FALLBACK_PPI \/
   note = Some NOTE_PIXELS_PER_POINT \/
   note = Some (NOTE_FALLBACK_PPI ++ NOTE_PIXELS_PER_POINT)%string) /\
  degraded (view_of (recomputeAndResize p v))
  = match note with
    | Some _ => true
    | None => false
    end.
Proof.
  cbv zeta.
  destruct (recompute_stages p v) as (x & y & _ & _ & Hrun).
  rewrite Hrun. cbn [view_of fst snd _error_text]. unfold degraded.
  cbn [_error_text].
  destruct (resolve_total p) as (x' & t & Ht & Hres). rewrite Hres.
  cbn [view_of fst snd].
  destruct (ratio_cases p) as [Hr|(backing & Hb & Hle)].
  - rewrite (backing_fallback p Hr). cbn [view_of fst snd _error_text].
    destruct Ht as [->|[-> _]]; split; auto.
  - rewrite (backing_measured p backing Hb Hle). cbn [view_of fst snd _error_text].
    destruct Ht as [->|[-> _]]; split; auto.
Qed.

(** The flag is sound: a view that is not degraded after a run holds a
    measured scale.  The display id resolved, the three queries answered,
    [float(pixel width)] did not overflow, both widths are above zero, the
    backing ratio is not [<= 0], and the scale is the quotient of the
    measured density by that ratio. *)
Theorem undegraded_scale_is_measured (p : Platform) (v : RulerView) :
  degraded (view_of (recomputeAndResize p v)) = false ->
  exists id size_mm mode n px_w backing,
    selected_display_id p = Some id /\
    CGDisplayScreenSize p id = Ok size_mm /\
    CGDisplayCopyDisplayMode p id = Ok mode /\
    CGDisplayModeGetPixelWidth p mode = Ok n /\
    py_float n = Ok px_w /\
    gt0 (width size_mm) = true /\ gt0 px_w = true /\
    convertRectToBacking_ p (NSMakeRect 0 0 200 1) = Ok backing /\
    le0 (width (size backing) / 200.0) = false /\
    _points_per_mm (view_of (recomputeAndResize p v))
      = (px_w / width size_mm) / (width (size backing) / 200.0).
Proof.
  destruct (recompute_stages p v) as (x & y & Hx & Hy & Hrun).
  rewrite Hrun. unfold degraded. cbn [view_of fst snd _error_text].
  destruct (ratio_cases p) as [Hr|(backing & Hb & Hle)].
  - rewrite (backing_fallback p Hr). cbn [view_of fst snd _error_text].
    destruct (resolve_total p) as (x' & t & Ht & Hres). rewrite Hres.
    cbn [view_of fst snd _error_text].
    destruct Ht as [->|[-> _]]; discriminate.
  - rewrite (backing_measured p backing Hb Hle) in Hy |- *.
    cbn [view_of result_of fst snd _error_text] in Hy |- *.
    destruct (resolve_cases p)
      as [Hres|(id & size_mm & mode & n & px_w & Hid & Hs & Hm & Hn & Hf
                & Hmm & Hpx & Hres)];
      rewrite Hres in Hx |- *; cbn [view_of result_of fst snd _error_text] in Hx |- *.
    + discriminate.
    + intros _. injection Hx as <-. injection Hy as <-.
      exists id, size_mm, mode, n, px_w, backing. repeat (split; [assumption|]).
      reflexivity.
Qed.

Lemma undegraded_scale_is_measured_witness :
  exists id size_mm mode n px_w backing,
    selected_display_id Sample.retina = Some id /\
    CGDisplayScreenSize Sample.retina id = Ok size_mm /\
    CGDisplayCopyDisplayMode Sample.retina id = Ok mode /\
    CGDisplayModeGetPixelWidth Sample.retina mode = Ok n /\
    py_float n = Ok px_w /\
    gt0 (width size_mm) = true /\ gt0 px_w = true /\
    convertRectToBacking_ Sample.retina (NSMakeRect 0 0 200 1) = Ok backing /\
    le0 (width (size backing) / 200.0) = false /\
    _points_per_mm (view_of (recomputeAndResize Sample.retina Sample.stale))
      = (px_w / width size_mm) / (width (size backing) / 200.0).
Proof.
  apply (undegraded_scale_is_measured Sample.retina Sample.stale).
  reflexivity.
Defined.

(** A window that is on a screen never consults the main screen: whatever
    [NSScreen.mainScreen()] answers, the run is the same. *)
Theorem attached_window_ignores_main_screen
    (p : Platform) (s : NSScreen) (m : option NSScreen) (v : RulerView) :
  window_screen p = Some s ->
  selected_screen p = Some s /\
  recomputeAndResize (with_main_screen p m) v = recomputeAndResize p v.
Proof.
  intros Hws.
  assert (Hsel : forall m', selected_screen (with_main_screen p m') = Some s).
  { intros m'. unfold selected_screen, window_screen in *. cbn [with_main_screen window].
    destruct (window p) as [win|]; [rewrite Hws; reflexivity|discriminate]. }
  assert (Hp : selected_screen p = Some s).
  { unfold selected_screen, window_screen in *.
    destruct (window p) as [win|]; [rewrite Hws; reflexivity|discriminate]. }
  split; [exact Hp|].
  unfold recomputeAndResize, resolve_pixels_per_mm, selected_display_id.
  rewrite Hsel, Hp. reflexivity.
Qed.

Lemma attached_window_ignores_main_screen_witness :
  selected_screen Sample.retina = Some Sample.builtin_screen /\
  recomputeAndResize (with_main_screen Sample.retina None) Sample.fresh
  = recomputeAndResize Sample.retina Sample.fresh.
Proof.
  apply (attached_window_ignores_main_screen Sample.retina Sample.builtin_screen
           None Sample.fresh).
  reflexivity.
Defined.

(** ** A NaN from the backing store *)

Lemma is_nan_eq (y : float) : is_nan y = true -> y = nan.
Proof.
  unfold is_nan. rewrite eqb_spec. intros H.
  rewrite <- (SF2Prim_Prim2SF y).
  destruct (Prim2SF y) as [[|]|[|]| |[|] m e]; try reflexivity;
    unfold SFeqb, SFcompare in H;
    rewrite ?Z.compare_refl, ?Pos.compare_cont_refl in H; discriminate.
Qed.

Lemma div_nan (x : float) : x / nan = nan.
Proof.
  apply Prim2SF_inj. rewrite div_spec.
  change (Prim2SF nan) with S754_nan.
  destruct (Prim2SF x) as [[|]|[|]| |[|] m e]; reflexivity.
Qed.

(** The guard of line 131 is [pixels_per_point <= 0], which a NaN does not
    meet: when the backing store answers a NaN width the ratio is taken as
    measured.  The scale stored is then NaN, the second note is not added
    (the note is what the density stage left), and a window is asked for a
    NaN content width. *)
Theorem nan_backing_is_not_caught
    (p : Platform) (v : RulerView) (backing : NSRect) :
  convertRectToBacking_ p (NSMakeRect 0 0 200 1) = Ok backing ->
  is_nan (width (size backing)) = true ->
  result_of (backing_pixels_per_point p (view_of (resolve_pixels_per_mm p v)))
    = Ok nan /\
  _points_per_mm (view_of (recomputeAndResize p v)) = nan /\
  _error_text (view_of (recomputeAndResize p v))
    = _error_text (view_of (resolve_pixels_per_mm p v)) /\
  requested_content_width (effects_of (recomputeAndResize p v))
    = match window p with
      | Some _ => Some nan
      | None => None
      end.
Proof.
  intros Hb Hnan. apply is_nan_eq in Hnan.
  assert (Hle : le0 (width (size backing) / 200.0) = false)
    by (rewrite Hnan; reflexivity).
  destruct (recompute_stages p v) as (x & y & Hx & Hy & Hrun).
  rewrite (backing_measured p backing Hb Hle) in Hy, Hrun |- *.
  cbn [view_of result_of fst snd] in Hy, Hrun |- *.
  injection Hy as <-. rewrite Hnan in Hrun |- *.
  change (nan / 200.0) with nan in Hrun |- *.
  rewrite div_nan in Hrun. rewrite Hrun.
  cbn [view_of effects_of fst snd _points_per_mm _error_text].
  repeat split. destruct (window p); reflexivity.
Qed.

Lemma nan_backing_is_not_caught_witness :
  _points_per_mm (view_of (recomputeAndResize Scenario.nan_backing Sample.fresh)) = nan /\
  degraded (view_of (recomputeAndResize Scenario.nan_backing Sample.fresh)) = false /\
  requested_content_width (effects_of (recomputeAndResize Scenario.nan_backing Sample.fresh))
    = Some nan.
Proof.
  destruct (nan_backing_is_not_caught Scenario.nan_backing Sample.fresh
              (NSMakeRect 0 0 nan 1) eq_refl eq_refl) as (_ & Hs & Hn & Hw).
  unfold degraded. rewrite Hs, Hn, Hw. repeat split.
Defined.

(** ** What [drawRect_] draws and what it leaves alone *)

Lemma forallb_flat_map {A B} (f : B -> bool) (g : A -> list B) (xs : list A) :
  (forall x, forallb f (g x) = true) -> forallb f (flat_map g xs) = true.
Proof.
  intros Hg. induction xs as [|x xs IH]; [reflexivity|].
  cbn [flat_map]. rewrite forallb_app, Hg, IH. reflexivity.
Qed.

Lemma in_range (a b x : Z) : (a <= x < b)%Z -> In x (range a b).
Proof.
  intros Hx. unfold range. apply in_map_iff.
  exists (Z.to_nat (x - a)). split; [lia|].
  apply in_seq. lia.
Qed.

Lemma no_window_command_no_request (out : list Effect) :
  forallb (fun e => negb (is_window_command e)) out = true ->
  requested_content_width out = None.
Proof.
  induction out as [|e out IH]; [reflexivity|].
  cbn [forallb requested_content_width]. intros H.
  apply andb_true_iff in H as [He Hout].
  destruct e; try discriminate; exact (IH Hout).
Qed.

Lemma drawRect_effects_are_drawing
    (p : Platform) (dirtyRect : NSRect) (v : RulerView) :
  forallb (fun e => negb (is_window_command e))
    (effects_of (drawRect_ p dirtyRect v)) = true.
Proof.
  rewrite drawRect_run. cbn [effects_of snd].
  rewrite !forallb_app, !forallb_flat_map by reflexivity.
  destruct (_error_text v) as [text|]; [destruct (truthy (Some text))|];
    reflexivity.
Qed.

(** Drawing never resizes the window and never asks for another redisplay,
    so a redisplay cannot cause the next; and the path is stroked once. *)
Theorem draw_issues_no_window_command
    (p : Platform) (dirtyRect : NSRect) (v : RulerView) :
  forallb (fun e => negb (is_window_command e))
    (effects_of (drawRect_ p dirtyRect v)) = true /\
  requested_content_width (effects_of (drawRect_ p dirtyRect v)) = None /\
  List.length (filter is_stroke (effects_of (drawRect_ p dirtyRect v))) = 1%nat.
Proof.
  pose proof (drawRect_effects_are_drawing p dirtyRect v) as Hall.
  split; [exact Hall|].
  split; [exact (no_window_command_no_request _ Hall)|].
  rewrite drawRect_run. cbn [effects_of snd].
  rewrite !filter_app, !filter_flat_map_none by reflexivity.
  destruct (_error_text v) as [text|]; [destruct (truthy (Some text))|];
    reflexivity.
Qed.

(** Labels and tall ticks agree to the bit: for every centimetre [cm] in
    0..15 the tick at millimetre [10*cm] is a tall one and stands at the very
    [x] the label of [cm] is centred on; and the baseline ends at the [x] of
    the tick at 150 mm. *)
Theorem labels_sit_on_tall_ticks
    (p : Platform) (dirtyRect : NSRect) (v : RulerView) (cm : Z) :
  (0 <= cm <= 15)%Z ->
  let out := effects_of (drawRect_ p dirtyRect v) in
  let attrs := {| NSFontAttributeName := 12.0;
                  NSForegroundColorAttributeName := blackColor |} in
  let sz := sizeWithAttributes_ p (str cm) attrs in
  let x := MARGIN_PT + int_mul (cm * 10) (_points_per_mm v) in
  In (lineToPoint_ x (BASELINE_Y_PT + TICK_LARGE_PT)) out /\
  In (drawAtPoint_withAttributes_ (str cm) (x - width sz / 2.0)
        (BASELINE_Y_PT - height sz - 4.0) attrs) out /\
  In (lineToPoint_ (MARGIN_PT + int_mul 150 (_points_per_mm v)) BASELINE_Y_PT) out /\
  In (lineToPoint_ (MARGIN_PT + int_mul 150 (_points_per_mm v))
        (BASELINE_Y_PT + TICK_LARGE_PT)) out.
Proof.
  intros Hcm out attrs sz x. subst out. rewrite drawRect_run.
  cbn [effects_of snd].
  assert (Htall : forall mm, (0 <= mm <= 15)%Z ->
            In (lineToPoint_ (MARGIN_PT + int_mul (mm * 10) (_points_per_mm v))
                  (BASELINE_Y_PT + TICK_LARGE_PT))
               (flat_map
                  (fun mm =>
                     [moveToPoint_ (MARGIN_PT + int_mul mm (_points_per_mm v))
                        BASELINE_Y_PT;
                      lineToPoint_ (MARGIN_PT + int_mul mm (_points_per_mm v))
                        (BASELINE_Y_PT + tick_height mm)])
                  (range 0 151))).
  { intros mm Hmm. apply in_flat_map. exists (mm * 10)%Z.
    split; [apply in_range; lia|].
    right. left. unfold tick_height. rewrite Z.mod_mul by discriminate.
    reflexivity. }
  split; [|split; [|split]].
  - apply in_or_app. right. apply in_or_app. left. exact (Htall cm Hcm).
  - apply in_or_app. right. apply in_or_app. right. apply in_or_app. right.
    apply in_or_app. left. apply in_flat_map. exists cm.
    split; [apply in_range; lia | left; reflexivity].
  - apply in_or_app. left. do 5 right. left. reflexivity.
  - apply in_or_app. right. apply in_or_app. left.
    exact (Htall 15%Z ltac:(lia)).
Qed.

Lemma labels_sit_on_tall_ticks_witness :
  In (lineToPoint_ 420.0 56.0)
     (effects_of (drawRect_ Sample.retina Sample.frame Sample.fresh)) /\
  In (drawAtPoint_withAttributes_ "8" (420.0 - 8.0 / 2.0) (28.0 - 14.0 - 4.0)
        {| NSFontAttributeName := 12.0;
           NSForegroundColorAttributeName := blackColor |})
     (effects_of (drawRect_ Sample.retina Sample.frame Sample.fresh)).
Proof.
  destruct (labels_sit_on_tall_ticks Sample.retina Sample.frame Sample.fresh 8
              ltac:(lia)) as (Htick & Hlabel & _).
  split; [exact Htick | exact Hlabel].
Defined.

(** Drawing asks the platform for text sizes and for nothing else: two
    platforms that measure text alike draw the same, whatever their screens,
    windows and display queries are. *)
Theorem draw_reads_text_metrics_only
    (p q : Platform) (dirtyRect : NSRect) (v : RulerView) :
  (forall s attrs, sizeWithAttributes_ p s attrs = sizeWithAttributes_ q s attrs) ->
  drawRect_ p dirtyRect v = drawRect_ q dirtyRect v.
Proof.
  intros Hsize. rewrite !drawRect_run. do 4 f_equal. f_equal.
  apply flat_map_ext. intros cm. cbn zeta. rewrite Hsize. reflexivity.
Qed.

Lemma draw_reads_text_metrics_only_witness :
  drawRect_ Sample.retina Sample.frame Sample.stale
  = drawRect_ Sample.headless Sample.frame Sample.stale.
Proof.
  apply (draw_reads_text_metrics_only Sample.retina Sample.headless).
  intros s attrs. reflexivity.
Defined.

(** ** Keys *)

(** [keyDown_] closes the window on the escape key and on nothing else, and
    hands every other event, and only those, to the superclass.  An escape
    key that finds no window is dropped: it is neither closed on nor handed
    on.  The view is left as it was and nothing is drawn or resized. *)
Theorem keyDown_contract (p : Platform) (event : NSEvent) (v : RulerView) :
  outcome_of (keyDown_ p event v) = Ok tt /\
  view_after (keyDown_ p event v) = v /\
  (In performClose_ (calls_of (keyDown_ p event v)) <->
   charactersIgnoringModifiers event = Some ESC /\ window p <> None) /\
  (In (super_keyDown_ event) (calls_of (keyDown_ p event v)) <->
   charactersIgnoringModifiers event <> Some ESC) /\
  (List.length (calls_of (keyDown_ p event v)) <= 1)%nat /\
  (forall e, ~ In (toolkit e) (calls_of (keyDown_ p event v))).
Proof.
  unfold keyDown_, is_escape.
  destruct (charactersIgnoringModifiers event) as [s|] eqn:Hc;
    [destruct (String.eqb_spec s ESC) as [->|Hne]; [destruct (window p) as [win|]|]|];
    cbn [outcome_of view_after calls_of fst snd In List.length];
    repeat split; intuition (try congruence; try lia).
Qed.

(** ** Runs of events *)

Lemma no_window_command_no_redisplay (out : list Effect) :
  forallb (fun e => negb (is_window_command e)) out = true ->
  filter is_redisplay_request (map toolkit out) = [].
Proof.
  induction out as [|e out IH]; [reflexivity|].
  cbn [forallb map filter]. intros H.
  apply andb_true_iff in H as [He Hout].
  destruct e; try discriminate; exact (IH Hout).
Qed.

(** One event: it does not raise; a display event leaves the view a fresh
    [recomputeAndResize] gives on its platform and asks once to redisplay; a
    key or a draw leaves the view alone and asks for no redisplay. *)
Lemma deliver_step (e : Event) (v : RulerView) :
  exists calls,
    deliver e v
    = (Ok tt,
       match resolves_on e with
       | Some p => view_of (recomputeAndResize p v)
       | None => v
       end,
       calls) /\
    List.length (filter is_redisplay_request calls)
    = (if is_resolving e then 1 else 0)%nat.
Proof.
  assert (Hre : forall p,
            exists final out,
              recomputeAndResize p v = (Ok tt, final, out) /\
              List.length (filter is_redisplay_request (map toolkit out)) = 1%nat).
  { intros p. destruct (recompute_stages p v) as (x & y & _ & _ & Hrun).
    eexists _, _. split; [exact Hrun|]. destruct (window p); reflexivity. }
  destruct e as [p|p n|p n|p event|p dirtyRect];
    unfold is_resolving; cbn [deliver resolves_on].
  - destruct (Hre p) as (final & out & Hrun & Hlen).
    unfold viewDidMoveToWindow, from_view. rewrite Hrun.
    eexists. split; [reflexivity|]. exact Hlen.
  - destruct (Hre p) as (final & out & Hrun & Hlen).
    unfold screenParamsChanged_, from_view. rewrite Hrun.
    eexists. split; [reflexivity|]. exact Hlen.
  - destruct (Hre p) as (final & out & Hrun & Hlen).
    unfold windowDidChangeScreen_, from_view. rewrite Hrun.
    eexists. split; [reflexivity|]. exact Hlen.
  - unfold keyDown_.
    destruct (is_escape (charactersIgnoringModifiers event));
      [destruct (window p)|]; eexists; split; reflexivity.
  - pose proof (drawRect_effects_are_drawing p dirtyRect v) as Hall.
    assert (Hfst : fst (drawRect_ p dirtyRect v) = (Ok tt, v))
      by (rewrite drawRect_run; reflexivity).
    unfold from_view.
    destruct (drawRect_ p dirtyRect v) as [[r v1] out].
    cbn [fst effects_of snd] in Hfst, Hall. injection Hfst as -> ->.
    eexists. split; [reflexivity|].
    rewrite (no_window_command_no_redisplay out Hall). reflexivity.
Qed.

(** Whatever events reach the view, in whatever order and however often, no
    method raises, and the view holds what one fresh [recomputeAndResize]
    gives on the platform of the last display event (attachment, screen
    parameters changed, window changed screen), or what it held at the start
    when there was none: keys and redraws in between change nothing, and no
    earlier display state leaves a trace.  Requests to redisplay are not
    coalesced: there is one per display event and none for the others. *)
Theorem view_after_any_run (events : list Event) (v : RulerView) :
  outcome_of (deliver_all events v) = Ok tt /\
  view_after (deliver_all events v)
  = match last_resolution events with
    | Some p => view_of (recomputeAndResize p v)
    | None => v
    end /\
  List.length (filter is_redisplay_request (calls_of (deliver_all events v)))
  = List.length (filter is_resolving events).
Proof.
  revert v. induction events as [|e rest IH]; intros v.
  - repeat split.
  - cbn [deliver_all last_resolution filter].
    destruct (deliver_step e v) as (calls & Hstep & Hcount). rewrite Hstep.
    specialize (IH (match resolves_on e with
                    | Some p => view_of (recomputeAndResize p v)
                    | None => v
                    end)).
    destruct (deliver_all rest _) as [[r v2] out2].
    cbn [outcome_of view_after calls_of fst snd] in IH |- *.
    destruct IH as (Hr & Hv & Hn).
    split; [exact Hr|]. split.
    + rewrite Hv. destruct (last_resolution rest) as [q|]; [|reflexivity].
      destruct (recompute_closed q) as (final & out & Hrun).
      rewrite !Hrun. reflexivity.
    + rewrite filter_app, length_app, Hcount, Hn.
      destruct (is_resolving e); reflexivity.
Qed.
